(** * exonum-python-client: [exonum/client.py]

    A shallow embedding of the [Subscriber] and [ExonumClient] classes of
    [exonum/client.py], of the Python and library behaviour they rely on
    ([str.format], truthiness, [requests], [websocket], [threading]), and of
    the schema-loader contract the client is used with. *)

From Stdlib Require Import ZArith String Ascii DecimalString.
From Stdlib.Strings Require Import Byte.
From stdpp Require Import gmap strings list fin_maps.

#[local] Set Warnings "-register-all".

Local Open Scope Z_scope.
Local Open Scope string_scope.

(** ** Python values, exceptions and call outcomes *)

Module Py.

(** Exceptions that can cross the functions of [client.py]. *)
Inductive PyExn : Type :=
| KeyError (key : string)
| RuntimeError (msg : string)
| TypeError
| ValueError
| IndexError
| AttributeError
| ConnectionError
| WebSocketConnectionClosedException
| ProtobufLoaderEntityExists.

(** How a call ends: it returns a value, raises, or never returns because it
    waits on the network for something that does not come. *)
Inductive Outcome (A : Type) : Type :=
| Ret (a : A)
| Raise (e : PyExn)
| Block.
Arguments Ret {A} a.
Arguments Raise {A} e.
Arguments Block {A}.

Definition outcome_bind {A B} (f : A -> Outcome B) (o : Outcome A) : Outcome B :=
  match o with
  | Ret a => f a
  | Raise e => Raise e
  | Block => Block
  end.

Definition outcome_map {A B} (f : A -> B) (o : Outcome A) : Outcome B :=
  outcome_bind (fun a => Ret (f a)) o.

#[export] Instance Outcome_ret : MRet Outcome := fun A => @Ret A.
#[export] Instance Outcome_bind : MBind Outcome := fun A B => @outcome_bind A B.

Definition returns {A} (o : Outcome A) : bool :=
  match o with Ret _ => true | _ => false end.

Definition raises {A} (o : Outcome A) : bool :=
  match o with Raise _ => true | _ => false end.

Definition bytes : Type := list byte.

(** The Python objects the client handles: JSON documents as [json()]
    returns them, query parameters, websocket frames. A [dict] is kept as its
    items in insertion order, keys unique. *)
Inductive PyVal : Type :=
| PNone
| PBool (b : bool)
| PInt (z : Z)
| PStr (s : string)
| PBytes (b : bytes)
| PList (l : list PyVal)
| PDict (items : list (string * PyVal)).

(** [bool(v)]. *)
Definition truthy (v : PyVal) : bool :=
  match v with
  | PNone => false
  | PBool b => b
  | PInt z => negb (z =? 0)%Z
  | PStr s => negb (String.eqb s "")
  | PBytes b => match b with [] => false | _ => true end
  | PList l => match l with [] => false | _ => true end
  | PDict d => match d with [] => false | _ => true end
  end.

Fixpoint assoc_get (key : string) (items : list (string * PyVal)) : option PyVal :=
  match items with
  | [] => None
  | (k, v) :: rest => if String.eqb k key then Some v else assoc_get key rest
  end.

(** [v[key]] for a string key. *)
Definition getitem (v : PyVal) (key : string) : Outcome PyVal :=
  match v with
  | PDict items =>
      match assoc_get key items with
      | Some x => Ret x
      | None => Raise (KeyError key)
      end
  | _ => Raise TypeError
  end.

Fixpoint chars_of (s : string) : list PyVal :=
  match s with
  | EmptyString => []
  | String c rest => PStr (String c EmptyString) :: chars_of rest
  end.

(** The elements [for x in v] visits. *)
Definition iterate (v : PyVal) : Outcome (list PyVal) :=
  match v with
  | PList l => Ret l
  | PDict items => Ret (map (fun kv => PStr (fst kv)) items)
  | PStr s => Ret (chars_of s)
  | PBytes b => Ret (map (fun c => PInt (Z.of_N (Byte.to_N c))) b)
  | PNone | PBool _ | PInt _ => Raise TypeError
  end.

(** [str(n)] for an [int]. *)
Definition str_of_int (z : Z) : string := NilZero.string_of_int (Z.to_int z).

Definition hex_digit (n : N) : ascii :=
  match n with
  | 0 => "0" | 1 => "1" | 2 => "2" | 3 => "3" | 4 => "4" | 5 => "5"
  | 6 => "6" | 7 => "7" | 8 => "8" | 9 => "9" | 10 => "a" | 11 => "b"
  | 12 => "c" | 13 => "d" | 14 => "e" | _ => "f"
  end%N%char.

Definition dquote : ascii := ascii_of_N 34.

Definition byte_is (c : ascii) (b : byte) : bool := Ascii.eqb (ascii_of_byte b) c.

(** One byte of [repr(b'...')] with [quote] as the delimiter. *)
Definition repr_byte (quote : ascii) (b : byte) : string :=
  let n := Byte.to_N b in
  let c := ascii_of_byte b in
  if Ascii.eqb c quote || Ascii.eqb c "\" then String "\" (String c "")
  else if (n =? 9)%N then "\t"
  else if (n =? 10)%N then "\n"
  else if (n =? 13)%N then "\r"
  else if (n <? 32)%N || (127 <=? n)%N then
    String "\" (String "x" (String (hex_digit (n / 16)) (String (hex_digit (n mod 16)) "")))
  else String c "".

Definition concat_strings (l : list string) : string :=
  fold_right String.append "" l.

(** [repr(b)] for a [bytes] object, which is also what [str(b)] and
    ["{}".format(b)] give. *)
Definition repr_bytes (b : bytes) : string :=
  let quote : ascii :=
    if existsb (byte_is "'") b && negb (existsb (byte_is dquote) b)
    then dquote else "'"%char in
  String "b" (String quote (concat_strings (map (repr_byte quote) b)))
    +:+ String quote "".

(** [tmpl.format(a, b, ...)] for templates whose replacement fields are all the
    automatic field [{}], which is the only kind [client.py] uses; [{{] and
    [}}] are the escaped braces. Surplus arguments are ignored, a missing one
    is an [IndexError], a lone brace a [ValueError]. *)
Fixpoint format (tmpl : string) (args : list string) : Outcome string :=
  match tmpl with
  | EmptyString => Ret ""
  | String c rest =>
      if Ascii.eqb c "{" then
        match rest with
        | EmptyString => Raise ValueError
        | String c' rest' =>
            if Ascii.eqb c' "}" then
              match args with
              | [] => Raise IndexError
              | a :: args' => outcome_map (String.append a) (format rest' args')
              end
            else if Ascii.eqb c' "{" then outcome_map (String "{") (format rest' args)
            else Raise ValueError
        end
      else if Ascii.eqb c "}" then
        match rest with
        | EmptyString => Raise ValueError
        | String c' rest' =>
            if Ascii.eqb c' "}" then outcome_map (String "}") (format rest' args)
            else Raise ValueError
        end
      else outcome_map (String c) (format rest args)
  end.

(** [needle in hay] for two strings. *)
Fixpoint str_contains (needle hay : string) : bool :=
  String.prefix needle hay
  || match hay with
     | EmptyString => false
     | String _ rest => str_contains needle rest
     end.

Definition lower_ascii (c : ascii) : ascii :=
  let n := N_of_ascii c in
  if (65 <=? n)%N && (n <=? 90)%N then ascii_of_N (n + 32) else c.

(** [s.lower()] on ASCII text. *)
Fixpoint lower (s : string) : string :=
  match s with
  | EmptyString => EmptyString
  | String c rest => String (lower_ascii c) (lower rest)
  end.

End Py.
Export Py.


(** ** Effects: a state-and-exception monad

    [M S A] is a computation over a mutable state [S] (the process and the
    network for the HTTP client, the subscriber object with them for the
    websocket subscriber). The state after the call is kept whatever the
    outcome, as mutations made before a [raise] are in Python. *)

Module Eff.

Definition M (S A : Type) : Type := S -> Outcome A * S.

Definition ret {S A} (a : A) : M S A := fun s => (Ret a, s).

Definition bind {S A B} (f : A -> M S B) (m : M S A) : M S B :=
  fun s =>
    match m s with
    | (Ret a, s') => f a s'
    | (Raise e, s') => (Raise e, s')
    | (Block, s') => (Block, s')
    end.

#[export] Instance M_ret {S} : MRet (M S) := fun A => @ret S A.
#[export] Instance M_bind {S} : MBind (M S) := fun A B => @bind S A B.

Definition get {S} : M S S := fun s => (Ret s, s).
Definition put {S} (s : S) : M S unit := fun _ => (Ret tt, s).
Definition modify {S} (f : S -> S) : M S unit := fun s => (Ret tt, f s).
Definition raise {S A} (e : PyExn) : M S A := fun s => (Raise e, s).
Definition lift_outcome {S A} (o : Outcome A) : M S A := fun s => (o, s).

(** [try: body  except RuntimeError as error: handler(error)]. *)
Definition try_except_RuntimeError {S A} (body : M S A) (handler : string -> M S A) : M S A :=
  fun s =>
    match body s with
    | (Raise (RuntimeError msg), s') => handler msg s'
    | r => r
    end.

(** A computation on a part [T] of the state, run inside the whole [S]. *)
Definition zoom {S T A} (proj : S -> T) (inj : T -> S -> S) (m : M T A) : M S A :=
  fun s => let (o, t') := m (proj s) in (o, inj t' s).

(** [for x in l: f(x)]. *)
Fixpoint for_each {S A} (f : A -> M S unit) (l : list A) : M S unit :=
  match l with
  | [] => ret tt
  | x :: rest => bind (fun _ => for_each f rest) (f x)
  end.

(** [[f(x) for x in l]]. *)
Fixpoint comprehension {S A B} (f : A -> M S B) (l : list A) : M S (list B) :=
  match l with
  | [] => ret []
  | x :: rest => bind (fun y => bind (fun ys => ret (y :: ys)) (comprehension f rest)) (f x)
  end.

End Eff.
Export Eff.

(** ** The libraries the client calls: [requests], [websocket], [threading] *)

Module Lib.

(** [requests.structures.CaseInsensitiveDict]: the store is keyed by the
    lower-cased name and keeps the name as it was given with the value. *)
Record CaseInsensitiveDict : Type := { _store : gmap string (string * string) }.

Definition cid_empty : CaseInsensitiveDict := {| _store := ∅ |}.

Definition cid_setitem (key value : string) (d : CaseInsensitiveDict) : CaseInsensitiveDict :=
  {| _store := <[lower key := (key, value)]> (_store d) |}.

Definition cid_getitem (d : CaseInsensitiveDict) (key : string) : Outcome string :=
  match _store d !! lower key with
  | Some (_, value) => Ret value
  | None => Raise (KeyError (lower key))
  end.

(** [requests.Response], as far as the client reads it. [json] is what
    [response.json()] gives for the body: the decoded document, or the
    decoder's [ValueError]. *)
Record Response : Type := {
  status_code : Z;
  headers : CaseInsensitiveDict;
  content : bytes;
  json : Outcome PyVal
}.

Inductive Request : Type :=
| GET (url : string) (params : option (gmap string PyVal))
| POST (url : string) (data : string) (headers : gmap string string).

(** A websocket frame as [recv] returns it: text or binary. *)
Inductive ReceiveType : Type :=
| RStr (s : string)
| RBytes (b : bytes).

Definition frame_truthy (data : ReceiveType) : bool :=
  match data with
  | RStr s => truthy (PStr s)
  | RBytes b => truthy (PBytes b)
  end.

(** The process and the world around it: what was printed, the HTTP requests
    sent so far and how the node answers the next one, the frames a websocket
    endpoint will send ([None]: the endpoint refuses the connection), and the
    process-wide slot of the live schema loader. *)
Record World : Type := {
  stdout : list string;
  sent : list Request;
  server : list Request -> Request -> Outcome Response;
  ws_network : string -> option (list ReceiveType);
  loader_entity : bool
}.

Definition set_stdout (f : list string -> list string) (w : World) : World :=
  {| stdout := f (stdout w); sent := sent w; server := server w;
     ws_network := ws_network w; loader_entity := loader_entity w |}.

Definition set_sent (f : list Request -> list Request) (w : World) : World :=
  {| stdout := stdout w; sent := f (sent w); server := server w;
     ws_network := ws_network w; loader_entity := loader_entity w |}.

Definition set_loader_entity (b : bool) (w : World) : World :=
  {| stdout := stdout w; sent := sent w; server := server w;
     ws_network := ws_network w; loader_entity := b |}.

Definition print (line : string) : M World unit :=
  modify (set_stdout (fun out => (out ++ [line])%list)).

(** Sending a request: the node's answer (or the transport's exception) comes
    back and the request is on record. *)
Definition http (r : Request) : M World Response :=
  fun w => (server w (sent w) r, set_sent (fun l => (l ++ [r])%list) w).

Definition requests_get (url : string) (params : option (gmap string PyVal)) : M World Response :=
  http (GET url params).

Definition requests_post (url data : string) (hdrs : gmap string string) : M World Response :=
  http (POST url data hdrs).

Inductive WsCall : Type := CallConnect (address : string) | CallRecv | CallClose.

(** [websocket.WebSocket]: connected or not, the frames the peer has still to
    deliver, oldest first, and the calls made on the object so far. *)
Record WebSocket : Type := {
  connected : bool;
  incoming : list ReceiveType;
  ws_calls : list WsCall
}.

Definition WebSocket_new : WebSocket :=
  {| connected := false; incoming := []; ws_calls := [] |}.

Definition ws_called (c : WsCall) (ws : WebSocket) : list WsCall :=
  (ws_calls ws ++ [c])%list.

(** [connect(address)]. *)
Definition ws_connect (address : string) : M (WebSocket * World) unit :=
  fun '(ws, w) =>
    match ws_network w address with
    | Some frames =>
        (Ret tt, ({| connected := true; incoming := frames;
                     ws_calls := ws_called (CallConnect address) ws |}, w))
    | None =>
        (Raise ConnectionError,
         ({| connected := connected ws; incoming := incoming ws;
             ws_calls := ws_called (CallConnect address) ws |}, w))
    end.

(** [recv()]: the next frame; waits when none has arrived; raises on a socket
    that is not connected. *)
Definition ws_recv : M WebSocket ReceiveType :=
  fun ws =>
    let calls := ws_called CallRecv ws in
    if connected ws then
      match incoming ws with
      | data :: rest =>
          (Ret data, {| connected := true; incoming := rest; ws_calls := calls |})
      | [] => (Block, {| connected := true; incoming := []; ws_calls := calls |})
      end
    else
      (Raise WebSocketConnectionClosedException,
       {| connected := false; incoming := incoming ws; ws_calls := calls |}).

(** [close()] never raises and leaves the socket closed. *)
Definition ws_close : M WebSocket unit :=
  modify (fun ws => {| connected := false; incoming := incoming ws;
                       ws_calls := ws_called CallClose ws |}).

(** [threading.Thread]: not yet started, running its target, or ended; how
    many times [join] was called on it; and whether the code now running is
    the thread's own target, as it is when a method of the subscriber is
    called from the callback. *)
Inductive ThreadState : Type := Initial | Started | Stopped.

Record Thread : Type := {
  daemon : bool;
  state : ThreadState;
  joins : nat;
  current : bool
}.

Definition Thread_new : Thread :=
  {| daemon := false; state := Initial; joins := 0; current := false |}.

(** [setDaemon(d)] is refused once the thread has been started. *)
Definition thread_setDaemon (d : bool) : M Thread unit :=
  fun t =>
    match state t with
    | Initial =>
        (Ret tt, {| daemon := d; state := Initial; joins := joins t; current := current t |})
    | _ => (Raise (RuntimeError "cannot set daemon status of active thread"), t)
    end.

Definition thread_start : M Thread unit :=
  fun t =>
    match state t with
    | Initial =>
        (Ret tt, {| daemon := daemon t; state := Started; joins := joins t;
                    current := current t |})
    | _ => (Raise (RuntimeError "threads can only be started once"), t)
    end.

(** [isAlive()]: [threading.Thread] has had no attribute of this name since
    Python 3.9 (the method is [is_alive]), so looking it up raises
    [AttributeError], whatever the state of the thread. *)
Definition thread_isAlive : M Thread bool :=
  fun t => (Raise AttributeError, t).

(** [join()] is refused on a thread that was not started and on the thread
    that calls it; otherwise it returns once the thread has ended. *)
Definition thread_join : M Thread unit :=
  fun t =>
    let called := {| daemon := daemon t; state := state t; joins := S (joins t);
                     current := current t |} in
    match state t with
    | Initial => (Raise (RuntimeError "cannot join thread before it is started"), called)
    | _ =>
        if current t then (Raise (RuntimeError "cannot join current thread"), called)
        else (Ret tt, {| daemon := daemon t; state := Stopped; joins := S (joins t);
                         current := false |})
    end.

End Lib.
Export Lib.

(** ** [exonum/protobuf_loader.py] and [exonum/message.py], as the client
    uses them *)

Module ProtoFile.
(** Modelled from the spec: the named tuple [ProtoFile] of
    [exonum/protobuf_loader.py] (the spec's SchemaFile), one
    interface-definition unit [{name, content}] as returned by the node. A
    named tuple takes its fields as they are given. *)
Record t : Type := { name : PyVal; content : PyVal }.
End ProtoFile.

(** Modelled from the spec: [ProtobufProviderInterface], the schema fetch
    contract: [get_main_proto_sources() -> list[SchemaFile]] and
    [get_proto_sources_for_artifact(runtime_id, artifact_name) ->
    list[SchemaFile]]. *)
Class ProtobufProviderInterface (C : Type) : Type := {
  provider_get_main_proto_sources : C -> M World (list ProtoFile.t);
  provider_get_proto_sources_for_artifact : C -> Z -> string -> M World (list ProtoFile.t)
}.

Module ProtobufLoader.
Section Loader.
Context {C : Type} `{ProtobufProviderInterface C}.

Record t : Type := { client : C }.

(** Modelled from the spec: [ProtobufLoader(client)], the spec's
    [open() -> RegistryHandle]: it fails with the single-instance error if
    another handle is live in the process, and otherwise takes the
    process-scoped flag and returns the handle. *)
Definition new (client : C) : M World t :=
  w ← get;
  if loader_entity w then raise ProtobufLoaderEntityExists
  else modify (set_loader_entity true);; mret {| client := client |}.

(** Modelled from the spec: [close()], which tears the staging area down and
    releases the single-instance lock. *)
Definition close (loader : t) : M World unit :=
  modify (set_loader_entity false).

End Loader.
End ProtobufLoader.

(** Modelled from the spec: the message class of [exonum/message.py], of which
    the client uses [pack_into_json()], the spec's
    [pack_into_transport_form(tx) -> string]. *)
Class ExonumMessage (Msg : Type) : Type := {
  pack_into_json : Msg -> Outcome string
}.

(** ** [exonum/client.py] *)

Module Client.

Definition _ENDPOINT_PREFIX : string := "{}://{}:{}".

Definition _TX_URL : string := _ENDPOINT_PREFIX +:+ "/api/explorer/v1/transactions".
Definition _BLOCK_URL : string := _ENDPOINT_PREFIX +:+ "/api/explorer/v1/block".
Definition _BLOCKS_URL : string := _ENDPOINT_PREFIX +:+ "/api/explorer/v1/blocks".
Definition _SYSTEM_URL : string := _ENDPOINT_PREFIX +:+ "/api/system/v1/{}".
Definition _SERVICE_URL : string := _ENDPOINT_PREFIX +:+ "/api/services/{}/".
Definition _WEBSOCKET_URI : string := "ws://{}:{}/api/explorer/v1/blocks/subscribe".

(** [_get] and [_post], the wrappers over [requests.get] and
    [requests.post]. *)
Definition _get (url : string) (params : option (gmap string PyVal)) : M World Response :=
  requests_get url params.

Definition _post (url data : string) (hdrs : gmap string string) : M World Response :=
  requests_post url data hdrs.

(** *** class Subscriber *)

Module Subscriber.

(** The callback: it takes the received data and returns nothing; whatever
    it does, it does to the world. *)
Definition CallbackType : Type := ReceiveType -> M World unit.

Record t : Type := {
  _address : string;
  _is_running : bool;
  _connected : bool;
  _ws_client : WebSocket;
  _thread : Thread;
  _handler : option CallbackType
}.

Definition set_is_running (b : bool) (self : t) : t :=
  {| _address := _address self; _is_running := b; _connected := _connected self;
     _ws_client := _ws_client self; _thread := _thread self; _handler := _handler self |}.

Definition set_connected (b : bool) (self : t) : t :=
  {| _address := _address self; _is_running := _is_running self; _connected := b;
     _ws_client := _ws_client self; _thread := _thread self; _handler := _handler self |}.

Definition set_ws_client (ws : WebSocket) (self : t) : t :=
  {| _address := _address self; _is_running := _is_running self;
     _connected := _connected self; _ws_client := ws; _thread := _thread self;
     _handler := _handler self |}.

Definition set_thread (th : Thread) (self : t) : t :=
  {| _address := _address self; _is_running := _is_running self;
     _connected := _connected self; _ws_client := _ws_client self; _thread := th;
     _handler := _handler self |}.

Definition set__handler (h : option CallbackType) (self : t) : t :=
  {| _address := _address self; _is_running := _is_running self;
     _connected := _connected self; _ws_client := _ws_client self;
     _thread := _thread self; _handler := h |}.

(** A method runs on the object and the world. *)
Definition Method (A : Type) : Type := M (t * World) A.

Definition self_ : Method t := fun s => (Ret (fst s), s).

Definition update (f : t -> t) : Method unit := modify (fun s => (f (fst s), snd s)).

Definition on_world {A} (m : M World A) : Method A :=
  zoom snd (fun w s => (fst s, w)) m.

Definition on_ws_client {A} (m : M WebSocket A) : Method A :=
  zoom (fun s => _ws_client (fst s)) (fun ws s => (set_ws_client ws (fst s), snd s)) m.

Definition on_ws_client_world {A} (m : M (WebSocket * World) A) : Method A :=
  zoom (fun s => (_ws_client (fst s), snd s))
       (fun r s => (set_ws_client (fst r) (fst s), snd r)) m.

Definition on_thread {A} (m : M Thread A) : Method A :=
  zoom (fun s => _thread (fst s)) (fun th s => (set_thread th (fst s), snd s)) m.

Definition __init__ (address : string) (port : Z) : Outcome t :=
  uri ← format _WEBSOCKET_URI [address; str_of_int port];
  Ret {| _address := uri; _is_running := false; _connected := false;
         _ws_client := WebSocket_new; _thread := Thread_new; _handler := None |}.

Definition connect : Method unit :=
  self ← self_;
  on_ws_client_world (ws_connect (_address self));;
  update (set_connected true).

Definition set_handler (handler : CallbackType) : Method unit :=
  update (set__handler (Some handler)).

Definition run : Method unit :=
  try_except_RuntimeError
    (update (set_is_running true);;
     on_thread (thread_setDaemon true);;
     on_thread thread_start)
    (fun error =>
       on_world (print ("Error occured during running subscriber thread: " +:+ error))).

(** One turn of the [while] loop of [_event_processing], the test of
    [self._is_running] passed. *)
Definition _event_processing_body : Method unit :=
  data ← on_ws_client ws_recv;
  self ← self_;
  match frame_truthy data, _handler self with
  | true, Some handler => on_world (handler data)
  | _, _ => mret tt
  end.

Inductive LoopStatus : Type := Looping | Returned.

(** [_event_processing], the target of the background thread, for at most
    [turns] turns of its loop: [Returned] when the loop saw [_is_running]
    false, [Looping] when it is still in the loop after that many turns.
    Between two turns the other thread may change the object. *)
Fixpoint _event_processing (turns : nat) : Method LoopStatus :=
  self ← self_;
  if _is_running self then
    match turns with
    | O => mret Looping
    | S n => _event_processing_body;; _event_processing n
    end
  else mret Returned.

Definition wait_for_new_block : Method unit :=
  self ← self_;
  if _is_running self then on_world (print "Subscriber is already running...")
  else on_ws_client ws_recv;; mret tt.

Definition stop : Method unit :=
  self ← self_;
  (if _connected self then
     on_ws_client ws_close;;
     update (set_connected false)
   else mret tt);;
  self ← self_;
  if _is_running self then
    alive ← on_thread thread_isAlive;
    (if alive : bool then on_thread thread_join else mret tt);;
    update (set_is_running false)
  else mret tt.

(** [with subscriber: ...]. *)
Definition __enter__ : Method unit := connect.
Definition __exit__ : Method unit := stop.

End Subscriber.

(** *** class ExonumClient *)

Module ExonumClient.

Record t : Type := {
  schema : string;
  hostname : string;
  public_api_port : Z;
  private_api_port : Z;
  tx_url : string
}.

(** The constructor; its defaults are [public_api_port = 80],
    [private_api_port = 81] and [ssl = False]. *)
Definition __init__ (hostname : string) (public_api_port private_api_port : Z)
    (ssl : bool) : Outcome t :=
  let schema := if ssl then "https" else "http" in
  tx_url ← format _TX_URL [schema; hostname; str_of_int public_api_port];
  Ret {| schema := schema; hostname := hostname; public_api_port := public_api_port;
         private_api_port := private_api_port; tx_url := tx_url |}.

Definition create_subscriber (self : t) : Outcome Subscriber.t :=
  Subscriber.__init__ (hostname self) (public_api_port self).

Definition service_endpoint (self : t) (service_name sub_uri : string) (private : bool)
    : Outcome string :=
  let port := if negb private then public_api_port self else private_api_port self in
  service_url ← format _SERVICE_URL
                  [schema self; hostname self; str_of_int port; service_name];
  Ret (service_url +:+ sub_uri).

Definition _system_endpoint (self : t) (endpoint : string) : Outcome string :=
  format _SYSTEM_URL
    [schema self; hostname self; str_of_int (public_api_port self); endpoint].

Definition available_services (self : t) : M World Response :=
  url ← lift_outcome
          (format _SYSTEM_URL
             [schema self; hostname self; str_of_int (public_api_port self); "services"]);
  _get url None.

Section Messages.
Context {Msg : Type} `{ExonumMessage Msg}.

Definition send_transaction (self : t) (message : Msg) : M World Response :=
  data ← lift_outcome (pack_into_json message);
  response ← _post (tx_url self) data {[ "content-type" := "application/json" ]};
  mret response.

Definition send_transactions (self : t) (messages : list Msg) : M World (list Response) :=
  comprehension (send_transaction self) messages.

End Messages.

Definition get_block (self : t) (height : Z) : M World Response :=
  url ← lift_outcome
          (format _BLOCK_URL [schema self; hostname self; str_of_int (public_api_port self)]);
  _get url (Some {[ "height" := PInt height ]}).

(** The [params] dictionary [get_blocks] builds. *)
Definition get_blocks_params (count : Z) (latest : option Z)
    (skip_empty_blocks add_blocks_time : bool) : gmap string PyVal :=
  let params : gmap string PyVal := ∅ in
  let params := <["count" := PInt count]> params in
  let params :=
    match latest with
    | Some n => if truthy (PInt n) then <["latest" := PInt n]> params else params
    | None => if truthy PNone then <["latest" := PNone]> params else params
    end in
  let params :=
    if skip_empty_blocks then <["skip_empty_blocks" := PStr "true"]> params else params in
  let params :=
    if add_blocks_time then <["add_blocks_time" := PStr "true"]> params else params in
  params.

Definition get_blocks (self : t) (count : Z) (latest : option Z)
    (skip_empty_blocks add_blocks_time : bool) : M World Response :=
  blocks_url ← lift_outcome
                 (format _BLOCKS_URL
                    [schema self; hostname self; str_of_int (public_api_port self)]);
  _get blocks_url (Some (get_blocks_params count latest skip_empty_blocks add_blocks_time)).

Definition get_tx_info (self : t) (tx_hash : string) : M World Response :=
  url ← lift_outcome
          (format _TX_URL [schema self; hostname self; str_of_int (public_api_port self)]);
  _get url (Some {[ "hash" := PStr tx_hash ]}).

Definition get_service (self : t) (service_name sub_uri : string) (private : bool)
    : M World Response :=
  url ← lift_outcome (service_endpoint self service_name sub_uri private);
  _get url None.

Definition post_service (self : t) (service_name sub_uri data : string) (private : bool)
    : M World Response :=
  let json_headers : gmap string string := {[ "content-type" := "application/json" ]} in
  url ← lift_outcome (service_endpoint self service_name sub_uri private);
  _post url data json_headers.

Definition health_info (self : t) : M World Response :=
  url ← lift_outcome (_system_endpoint self "healthcheck");
  _get url None.

Definition mempool (self : t) : M World Response :=
  url ← lift_outcome (_system_endpoint self "mempool");
  _get url None.

Definition user_agent (self : t) : M World Response :=
  url ← lift_outcome (_system_endpoint self "user_agent");
  _get url None.

(** The test [response.status_code != 200 or "application/json" not in
    response.headers["content-type"]]; [or] looks at its second operand only
    when the first is false. *)
Definition unsuccessful (response : Response) : Outcome bool :=
  if negb (status_code response =? 200)%Z then Ret true
  else
    content_type ← cid_getitem (headers response) "content-type";
    Ret (negb (str_contains "application/json" content_type)).

(** [ProtoFile(name=proto_file["name"], content=proto_file["content"])]. *)
Definition make_proto_file (proto_file : PyVal) : Outcome ProtoFile.t :=
  name ← getitem proto_file "name";
  content ← getitem proto_file "content";
  Ret {| ProtoFile.name := name; ProtoFile.content := content |}.

Definition _get_proto_sources (self : t) (params : option (gmap string PyVal))
    : M World (list ProtoFile.t) :=
  url ← lift_outcome (_system_endpoint self "proto-sources");
  response ← _get url params;
  bad ← lift_outcome (unsuccessful response);
  if bad : bool then
    msg ← lift_outcome
            (format "Unsuccessfully attempted to retrieve protobuf sources: {}"
               [repr_bytes (content response)]);
    raise (RuntimeError msg)
  else
    document ← lift_outcome (json response);
    elements ← lift_outcome (iterate document);
    proto_files ← comprehension (fun proto_file => lift_outcome (make_proto_file proto_file))
                    elements;
    mret proto_files.

Definition get_main_proto_sources (self : t) : M World (list ProtoFile.t) :=
  _get_proto_sources self None.

Definition get_proto_sources_for_artifact (self : t) (runtime_id : Z)
    (artifact_name : string) : M World (list ProtoFile.t) :=
  artifact ← lift_outcome (format "{}:{}" [str_of_int runtime_id; artifact_name]);
  let params : gmap string PyVal := {[ "artifact" := PStr artifact ]} in
  _get_proto_sources self (Some params).

(** [class ExonumClient(ProtobufProviderInterface)]. *)
#[export] Instance provider : ProtobufProviderInterface t := {|
  provider_get_main_proto_sources := get_main_proto_sources;
  provider_get_proto_sources_for_artifact := get_proto_sources_for_artifact
|}.

Definition protobuf_loader (self : t) : M World ProtobufLoader.t :=
  ProtobufLoader.new self.

End ExonumClient.

End Client.

(** ** Notions used to state the properties *)

Import Client.

(** The URLs the templates give. *)
Definition system_url (self : ExonumClient.t) (endpoint : string) : string :=
  ExonumClient.schema self +:+ "://" +:+ ExonumClient.hostname self +:+ ":"
  +:+ str_of_int (ExonumClient.public_api_port self) +:+ "/api/system/v1/" +:+ endpoint.

Definition blocks_url (self : ExonumClient.t) : string :=
  ExonumClient.schema self +:+ "://" +:+ ExonumClient.hostname self +:+ ":"
  +:+ str_of_int (ExonumClient.public_api_port self) +:+ "/api/explorer/v1/blocks".

Definition transactions_url (schema hostname : string) (port : Z) : string :=
  schema +:+ "://" +:+ hostname +:+ ":" +:+ str_of_int port
  +:+ "/api/explorer/v1/transactions".

(** The world once request [r] has gone out. *)
Definition after_request (r : Request) (w : World) : World :=
  set_sent (fun l => (l ++ [r])%list) w.

(** [[f(x) for x in l]] for an [f] without effects. *)
Fixpoint traverse {A B} (f : A -> Outcome B) (l : list A) : Outcome (list B) :=
  match l with
  | [] => Ret []
  | x :: rest =>
      match f x with
      | Ret y => outcome_map (cons y) (traverse f rest)
      | Raise e => Raise e
      | Block => Block
      end
  end.

(** The value of the [content-type] header, if the response has one. *)
Definition content_type (response : Response) : option string :=
  snd <$> _store (headers response) !! "content-type".

(** A response announces JSON when it has a [content-type] header and
    [application/json] occurs in it. *)
Definition announces_json (response : Response) : bool :=
  match content_type response with
  | Some value => str_contains "application/json" value
  | None => false
  end.

(** [proto_file] was built from the [name] and [content] fields of
    [element]. *)
Definition built_from (element : PyVal) (proto_file : ProtoFile.t) : Prop :=
  getitem element "name" = Ret (ProtoFile.name proto_file)
  ∧ getitem element "content" = Ret (ProtoFile.content proto_file).

Definition unsuccessful_message (response : Response) : string :=
  "Unsuccessfully attempted to retrieve protobuf sources: "
  +:+ repr_bytes (content response).

(** ** Sample data *)

Definition bytes_of_string (s : string) : bytes :=
  map byte_of_ascii (list_ascii_of_string s).

Definition quoted (s : string) : string := String dquote (s +:+ String dquote "").

Definition sample_client : ExonumClient.t :=
  {| ExonumClient.schema := "http";
     ExonumClient.hostname := "127.0.0.1";
     ExonumClient.public_api_port := 8080;
     ExonumClient.private_api_port := 8081;
     ExonumClient.tx_url := "http://127.0.0.1:8080/api/explorer/v1/transactions" |}.

(** A fresh process talking to a node that gives the same answer to every
    request and has no websocket endpoint. *)
Definition world_answering (answer : Outcome Response) : World :=
  {| stdout := []; sent := []; server := fun _ _ => answer;
     ws_network := fun _ => None; loader_entity := false |}.

Definition sources_document : PyVal :=
  PList [PDict [("name", PStr "runtime.proto"); ("content", PStr "syntax = 'proto3';")]].

Definition sources_response : Response :=
  {| status_code := 200;
     headers := cid_setitem "Content-Type" "application/json" cid_empty;
     content := bytes_of_string
                  ("[{" +:+ quoted "name" +:+ ": " +:+ quoted "runtime.proto" +:+ ", "
                   +:+ quoted "content" +:+ ": " +:+ quoted "syntax = 'proto3';" +:+ "}]");
     json := Ret sources_document |}.

Definition html_response : Response :=
  {| status_code := 200;
     headers := cid_setitem "Content-Type" "text/html" cid_empty;
     content := bytes_of_string "<html></html>";
     json := Raise ValueError |}.

Definition unavailable_response : Response :=
  {| status_code := 503;
     headers := cid_empty;
     content := bytes_of_string "Service Unavailable";
     json := Raise ValueError |}.

(** Status 200 and no [content-type] header at all. *)
Definition bare_response : Response :=
  {| status_code := 200;
     headers := cid_empty;
     content := bytes_of_string "[]";
     json := Ret (PList []) |}.

(** A transaction already in its transport form. *)
Definition packed_message : ExonumMessage string := {| pack_into_json := Ret |}.

Definition accepted_response : Response :=
  {| status_code := 200;
     headers := cid_setitem "Content-Type" "application/json" cid_empty;
     content := bytes_of_string ("{" +:+ quoted "tx_hash" +:+ ": " +:+ quoted "713de312" +:+ "}");
     json := Ret (PDict [("tx_hash", PStr "713de312")]) |}.

(** The frames a running loop hands to [handler], one call after the other:
    the calls [for data in frames: handler(data)] makes. *)
Definition deliver (handler : Subscriber.CallbackType) (frames : list ReceiveType)
    : M World unit :=
  for_each handler frames.

Definition warning : string := "Subscriber is already running...".

Definition websocket_address : string :=
  "ws://127.0.0.1:8080/api/explorer/v1/blocks/subscribe".

(** A node whose websocket endpoint sends [frames]. *)
Definition world_streaming (frames : list ReceiveType) : World :=
  {| stdout := []; sent := []; server := fun _ _ => Block;
     ws_network := fun address =>
       if String.eqb address websocket_address then Some frames else None;
     loader_entity := false |}.

(** A callback that prints what it is given. *)
Definition printing_handler : Subscriber.CallbackType :=
  fun data =>
    print (match data with
           | RStr text => text
           | RBytes b => repr_bytes b
           end).

(** The subscriber as [create_subscriber] leaves it: never connected. *)
Definition fresh_subscriber : Subscriber.t :=
  {| Subscriber._address := websocket_address;
     Subscriber._is_running := false;
     Subscriber._connected := false;
     Subscriber._ws_client := WebSocket_new;
     Subscriber._thread := Thread_new;
     Subscriber._handler := None |}.

(** The subscriber after [connect()], [set_handler(printing_handler)] and
    [run()] against a node that streams [frames]. *)
Definition listening_subscriber (frames : list ReceiveType) : Subscriber.t :=
  {| Subscriber._address := websocket_address;
     Subscriber._is_running := true;
     Subscriber._connected := true;
     Subscriber._ws_client :=
       {| connected := true; incoming := frames;
          ws_calls := [CallConnect websocket_address] |};
     Subscriber._thread :=
       {| daemon := true; state := Started; joins := 0; current := false |};
     Subscriber._handler := Some printing_handler |}.

Definition three_frames : list ReceiveType :=
  [RStr "block 1"; RStr ""; RStr "block 2"].

(** What a process does with schema loaders: it asks the client for one, or
    closes the one it got last. *)
Inductive LoaderCall : Type := NewLoader | CloseLoader.

(** The loaders obtained and not yet closed, after the process has made
    [calls], newest first. *)
Fixpoint live_loaders (self : ExonumClient.t) (calls : list LoaderCall)
    (live : list (@ProtobufLoader.t ExonumClient.t)) (w : World)
    : list (@ProtobufLoader.t ExonumClient.t) * World :=
  match calls with
  | [] => (live, w)
  | NewLoader :: rest =>
      match ExonumClient.protobuf_loader self w with
      | (Ret loader, w') => live_loaders self rest (loader :: live) w'
      | (_, w') => live_loaders self rest live w'
      end
  | CloseLoader :: rest =>
      match live with
      | loader :: live' => live_loaders self rest live' (snd (ProtobufLoader.close loader w))
      | [] => live_loaders self rest live w
      end
  end.

(** ** Further notions *)

(** The URL of a service endpoint on the port [port]. *)
Definition service_url (self : ExonumClient.t) (port : Z) (service_name sub_uri : string)
    : string :=
  ExonumClient.schema self +:+ "://" +:+ ExonumClient.hostname self +:+ ":"
  +:+ str_of_int port +:+ "/api/services/" +:+ service_name +:+ "/" +:+ sub_uri.

Definition block_url (self : ExonumClient.t) : string :=
  ExonumClient.schema self +:+ "://" +:+ ExonumClient.hostname self +:+ ":"
  +:+ str_of_int (ExonumClient.public_api_port self) +:+ "/api/explorer/v1/block".

(** Sending [request] and nothing else: the transport's outcome, as it came,
    and the request on record. *)
Definition only_sends (request : Request) (w : World) : Outcome Response * World :=
  (server w (sent w) request, after_request request w).

(** The POST that submits [body] for the client [self]. *)
Definition submission (self : ExonumClient.t) (body : string) : Request :=
  POST (ExonumClient.tx_url self) body {[ "content-type" := "application/json" ]}.

(** [with subscriber: body]: [__enter__], then the body, then [__exit__]
    whether the body returned or raised; [__exit__] returns [None], so what
    the body raised goes on. When [__enter__] raises the body and [__exit__]
    are not run. *)
Definition with_subscriber {A} (body : Subscriber.Method A) : Subscriber.Method A :=
  fun s =>
    match Subscriber.__enter__ s with
    | (Ret _, s1) =>
        match body s1 with
        | (Ret a, s2) =>
            match Subscriber.__exit__ s2 with
            | (Ret _, s3) => (Ret a, s3)
            | (Raise e', s3) => (Raise e', s3)
            | (Block, s3) => (Block, s3)
            end
        | (Raise e, s2) =>
            match Subscriber.__exit__ s2 with
            | (Ret _, s3) => (Raise e, s3)
            | (Raise e', s3) => (Raise e', s3)
            | (Block, s3) => (Block, s3)
            end
        | (Block, s2) => (Block, s2)
        end
    | (Raise e, s1) => (Raise e, s1)
    | (Block, s1) => (Block, s1)
    end.

(** The subscriber once [stop] has dealt with the connection: the socket
    closed and [_connected] false if it was connected, the object as it was
    otherwise. *)
Definition disconnected (self : Subscriber.t) : Subscriber.t :=
  if Subscriber._connected self then
    Subscriber.set_connected false
      (Subscriber.set_ws_client
         {| connected := false; incoming := incoming (Subscriber._ws_client self);
            ws_calls := ws_called CallClose (Subscriber._ws_client self) |} self)
  else self.

(** The socket after [n] more frames have been taken off it. *)
Definition after_receiving (n : nat) (ws : WebSocket) : WebSocket :=
  {| connected := connected ws; incoming := drop n (incoming ws);
     ws_calls := (ws_calls ws ++ replicate n CallRecv)%list |}.

Definition run_error : string :=
  "Error occured during running subscriber thread: "
  +:+ "cannot set daemon status of active thread".

(** A callback that fails on every frame. *)
Definition failing_handler : Subscriber.CallbackType :=
  fun _ => raise ValueError.

(** A message that has not been signed has no transport form. *)
Definition unsigned_message : ExonumMessage (option string) :=
  {| pack_into_json := fun m => match m with Some body => Ret body | None => Raise TypeError end |}.

(** A node that accepts whatever it is sent. *)
Definition accepting_world : World := world_answering (Ret accepted_response).

(** A decoded document that is not a list and has something to iterate over,
    or cannot be iterated at all. *)
Definition unusable_document (document : PyVal) : bool :=
  match document with
  | PList _ => false
  | PNone | PBool _ | PInt _ => true
  | PStr _ | PBytes _ | PDict _ => truthy document
  end.

(** Reading the proto files out of a response that passed the test. *)
Definition read_proto_files (response : Response) : Outcome (list ProtoFile.t) :=
  document ← json response;
  elements ← iterate document;
  traverse ExonumClient.make_proto_file elements.

(** What the loop hands to the callback, if there is one, out of [frames]. *)
Definition hand_over (handler : option Subscriber.CallbackType)
    (frames : list ReceiveType) : M World unit :=
  match handler with
  | Some h => deliver h (List.filter frame_truthy frames)
  | None => mret tt
  end.

Definition incomplete_document : PyVal :=
  PList [PDict [("name", PStr "runtime.proto"); ("content", PStr "syntax = 'proto3';")];
         PDict [("name", PStr "helpers.proto")];
         PDict [("content", PStr "message Hash {}")]].

Definition incomplete_response : Response :=
  {| status_code := 200;
     headers := cid_setitem "Content-Type" "application/json" cid_empty;
     content := [];
     json := Ret incomplete_document |}.

Definition charset_response : Response :=
  {| status_code := 200;
     headers := cid_setitem "Content-Type" "application/json; charset=utf-8" cid_empty;
     content := bytes_of_string "[]";
     json := Ret (PList []) |}.

Definition error_object_response : Response :=
  {| status_code := 200;
     headers := cid_setitem "content-type" "application/json" cid_empty;
     content := bytes_of_string ("{" +:+ quoted "error" +:+ ": " +:+ quoted "busy" +:+ "}");
     json := Ret (PDict [("error", PStr "busy")]) |}.

(** * Properties *)

(** ** The monad *)

Lemma bind_lift_Ret {S A B} (o : Outcome A) (a : A) (f : A -> M S B) (s : S) :
  o = Ret a -> (lift_outcome o ≫= f) s = f a s.
Proof. intros ->. reflexivity. Qed.

Lemma bind_lift_Raise {S A B} (o : Outcome A) (e : PyExn) (f : A -> M S B) (s : S) :
  o = Raise e -> (lift_outcome o ≫= f) s = (Raise e, s).
Proof. intros ->. reflexivity. Qed.

Lemma bind_ret_r {S A} (m : M S A) (s : S) :
  (a ← m; mret a) s = m s.
Proof.
  unfold mbind, M_bind, bind. destruct (m s) as [[a | e |] s']; reflexivity.
Qed.

Lemma comprehension_pure {S A B} (f : A -> Outcome B) (l : list A) (s : S) :
  comprehension (fun x => lift_outcome (f x)) l s = (traverse f l, s).
Proof.
  induction l as [| x rest IH]; [reflexivity |].
  cbn [comprehension traverse]. unfold bind at 1, lift_outcome at 1.
  destruct (f x) as [y | e |]; try reflexivity.
  unfold bind at 1. rewrite IH.
  destruct (traverse f rest) as [ys | e |]; reflexivity.
Qed.

(** ** The endpoints *)

Lemma append_empty_r (s : string) : s +:+ "" = s.
Proof.
  induction s as [| c s IH]; [reflexivity |].
  change (String c (s +:+ "") = String c s). now rewrite IH.
Qed.

Lemma format_BLOCKS_URL self :
  format _BLOCKS_URL
    [ExonumClient.schema self; ExonumClient.hostname self;
     str_of_int (ExonumClient.public_api_port self)]
  = Ret (blocks_url self).
Proof. reflexivity. Qed.

Lemma system_endpoint_url self endpoint :
  ExonumClient._system_endpoint self endpoint = Ret (system_url self endpoint).
Proof.
  unfold ExonumClient._system_endpoint, system_url. simpl.
  now rewrite append_empty_r.
Qed.

Lemma init_returns hostname public_api_port private_api_port ssl :
  ExonumClient.__init__ hostname public_api_port private_api_port ssl
  = Ret {| ExonumClient.schema := if ssl then "https" else "http";
           ExonumClient.hostname := hostname;
           ExonumClient.public_api_port := public_api_port;
           ExonumClient.private_api_port := private_api_port;
           ExonumClient.tx_url :=
             transactions_url (if ssl then "https" else "http") hostname public_api_port |}.
Proof. reflexivity. Qed.

Lemma format_artifact runtime_id artifact_name :
  format "{}:{}" [str_of_int runtime_id; artifact_name]
  = Ret (str_of_int runtime_id +:+ ":" +:+ artifact_name).
Proof. simpl. now rewrite append_empty_r. Qed.

Lemma format_unsuccessful body :
  format "Unsuccessfully attempted to retrieve protobuf sources: {}" [body]
  = Ret ("Unsuccessfully attempted to retrieve protobuf sources: " +:+ body).
Proof. simpl. now rewrite append_empty_r. Qed.

(** ** Fetching the proto sources *)

(** What [unsuccessful] gives, by status and header. *)
Lemma unsuccessful_cases response :
  ExonumClient.unsuccessful response
  = if negb (status_code response =? 200)%Z then Ret true
    else match content_type response with
         | Some value => Ret (negb (str_contains "application/json" value))
         | None => Raise (KeyError "content-type")
         end.
Proof.
  unfold ExonumClient.unsuccessful, content_type, cid_getitem.
  destruct (negb _); [reflexivity |].
  change (lower "content-type") with "content-type".
  destruct (_store (headers response) !! "content-type") as [[k v] |]; reflexivity.
Qed.

(** [_get_proto_sources] sends one GET to the proto-sources endpoint with
    the parameters it was given, and its outcome is decided by the answer. *)
Lemma get_proto_sources_run self params w :
  ExonumClient._get_proto_sources self params w
  = let request := GET (system_url self "proto-sources") params in
    (match server w (sent w) request with
     | Ret response =>
         match ExonumClient.unsuccessful response with
         | Ret true => Raise (RuntimeError (unsuccessful_message response))
         | Ret false =>
             match json response with
             | Ret document =>
                 match iterate document with
                 | Ret elements => traverse ExonumClient.make_proto_file elements
                 | Raise e => Raise e
                 | Block => Block
                 end
             | Raise e => Raise e
             | Block => Block
             end
         | Raise e => Raise e
         | Block => Block
         end
     | Raise e => Raise e
     | Block => Block
     end, after_request request w).
Proof.
  unfold ExonumClient._get_proto_sources.
  rewrite (bind_lift_Ret _ _ _ _ (system_endpoint_url self "proto-sources")).
  unfold mbind at 1, M_bind, bind at 1, _get, requests_get, http, after_request.
  cbv zeta.
  destruct (server w (sent w) (GET (system_url self "proto-sources") params))
    as [response | e |]; try reflexivity.
  unfold mbind at 1, bind at 1, lift_outcome at 1.
  destruct (ExonumClient.unsuccessful response) as [[|] | e |]; try reflexivity.
  - rewrite (bind_lift_Ret _ _ _ _ (format_unsuccessful _)). reflexivity.
  - unfold mbind at 1, bind at 1, lift_outcome at 1.
    destruct (json response) as [document | e |]; try reflexivity.
    unfold mbind at 1, bind at 1, lift_outcome at 1.
    destruct (iterate document) as [elements | e |]; try reflexivity.
    unfold mbind at 1, bind at 1. rewrite comprehension_pure.
    destruct (traverse _ elements); reflexivity.
Qed.

Lemma get_main_is_get_proto_sources self :
  ExonumClient.get_main_proto_sources self = ExonumClient._get_proto_sources self None.
Proof. reflexivity. Qed.

Lemma get_for_artifact_is_get_proto_sources self runtime_id artifact_name w :
  ExonumClient.get_proto_sources_for_artifact self runtime_id artifact_name w
  = ExonumClient._get_proto_sources self
      (Some {[ "artifact" := PStr (str_of_int runtime_id +:+ ":" +:+ artifact_name) ]}) w.
Proof.
  unfold ExonumClient.get_proto_sources_for_artifact.
  now rewrite (bind_lift_Ret _ _ _ _ (format_artifact runtime_id artifact_name)).
Qed.

Lemma traverse_built_from elements :
  Forall (fun element => ∃ proto_file, built_from element proto_file) elements ->
  ∃ files, traverse ExonumClient.make_proto_file elements = Ret files
           ∧ Forall2 built_from elements files.
Proof.
  induction 1 as [| element rest [proto_file [Hname Hcontent]] _ [files [Hfiles Hall]]].
  - exists []. split; [reflexivity | constructor].
  - exists (proto_file :: files). split.
    + assert (ExonumClient.make_proto_file element = Ret proto_file) as Hmake.
      { unfold ExonumClient.make_proto_file. rewrite Hname.
        unfold mbind at 1, Outcome_bind, outcome_bind. rewrite Hcontent.
        destruct proto_file; reflexivity. }
      cbn [traverse]. rewrite Hmake, Hfiles. reflexivity.
    + constructor; [split |]; assumption.
Qed.

(** X20: for every answer to the proto-sources request whose status
    is not 200, or which has a content-type header in which
    [application/json] does not occur, [_get_proto_sources] raises the
    [RuntimeError] whose message ends with the response body; for every answer
    with status 200 and a content-type header in which [application/json]
    occurs, whose document is a list of objects that have a name and a content
    field, it returns one [ProtoFile] per element, in order, each built from
    that element's name and content fields. [get_main_proto_sources] and
    [get_proto_sources_for_artifact] are [_get_proto_sources] at their
    parameters, so the same holds of them. *)
Theorem get_proto_sources_outcome self params w response :
  server w (sent w) (GET (system_url self "proto-sources") params) = Ret response ->
  ((status_code response ≠ 200
    ∨ (∃ value, content_type response = Some value
                ∧ str_contains "application/json" value = false)) ->
   fst (ExonumClient._get_proto_sources self params w)
   = Raise (RuntimeError (unsuccessful_message response)))
  ∧ (∀ elements,
       status_code response = 200 ->
       announces_json response = true ->
       json response = Ret (PList elements) ->
       Forall (fun element => ∃ proto_file, built_from element proto_file) elements ->
       ∃ files, fst (ExonumClient._get_proto_sources self params w) = Ret files
                ∧ Forall2 built_from elements files)
  ∧ (ExonumClient.get_main_proto_sources self w
     = ExonumClient._get_proto_sources self None w
     ∧ ∀ runtime_id artifact_name,
         ExonumClient.get_proto_sources_for_artifact self runtime_id artifact_name w
         = ExonumClient._get_proto_sources self
             (Some {[ "artifact" := PStr (str_of_int runtime_id +:+ ":" +:+ artifact_name) ]})
             w).
Proof.
  intros Hanswer.
  split; [| split].
  3: { split; [reflexivity | intros; apply get_for_artifact_is_get_proto_sources]. }
  all: rewrite get_proto_sources_run; cbv zeta; cbn [fst];
    rewrite Hanswer, unsuccessful_cases.
  - intros [Hstatus | [value [Hvalue Hnot]]].
    + apply Z.eqb_neq in Hstatus. now rewrite Hstatus.
    + destruct (negb _); [reflexivity |]. now rewrite Hvalue, Hnot.
  - intros elements Hstatus Hjson Hdocument Hfields.
    apply Z.eqb_eq in Hstatus. rewrite Hstatus. cbn [negb].
    unfold announces_json in Hjson.
    destruct (content_type response) as [value |]; [| discriminate].
    rewrite Hjson, Hdocument. cbn. now apply traverse_built_from.
Qed.

Lemma get_proto_sources_outcome_witness :
  fst (ExonumClient._get_proto_sources sample_client None
         (world_answering (Ret unavailable_response)))
  = Raise (RuntimeError
             "Unsuccessfully attempted to retrieve protobuf sources: b'Service Unavailable'")
  ∧ fst (ExonumClient._get_proto_sources sample_client None
           (world_answering (Ret html_response)))
    = Raise (RuntimeError
               "Unsuccessfully attempted to retrieve protobuf sources: b'<html></html>'")
  ∧ ∃ files,
      fst (ExonumClient._get_proto_sources sample_client None
             (world_answering (Ret sources_response))) = Ret files
      ∧ Forall2 built_from
          [PDict [("name", PStr "runtime.proto"); ("content", PStr "syntax = 'proto3';")]]
          files.
Proof.
  split; [| split].
  - apply (get_proto_sources_outcome sample_client None
             (world_answering (Ret unavailable_response)) unavailable_response eq_refl).
    left. discriminate.
  - apply (get_proto_sources_outcome sample_client None
             (world_answering (Ret html_response)) html_response eq_refl).
    right. exists "text/html". split; vm_compute; reflexivity.
  - apply (get_proto_sources_outcome sample_client None
             (world_answering (Ret sources_response)) sources_response eq_refl).
    + reflexivity.
    + vm_compute; reflexivity.
    + reflexivity.
    + constructor; [| constructor].
      exists {| ProtoFile.name := PStr "runtime.proto";
                ProtoFile.content := PStr "syntax = 'proto3';" |}.
      split; reflexivity.
Defined.

(** C2, at an answer with status 200 and no content-type header: the test
    that is to raise the [RuntimeError] with the response body fails itself,
    on the lookup [response.headers["content-type"]], and the fetch ends in
    [KeyError('content-type')]. Beside it, an answer without the header whose
    status is not 200 does get the [RuntimeError] with its body. *)
Theorem get_proto_sources_headerless_200 :
  status_code bare_response = 200
  ∧ content_type bare_response = None
  ∧ announces_json bare_response = false
  ∧ fst (ExonumClient._get_proto_sources sample_client None
           (world_answering (Ret bare_response)))
    = Raise (KeyError "content-type")
  ∧ fst (ExonumClient.get_main_proto_sources sample_client
           (world_answering (Ret bare_response)))
    = Raise (KeyError "content-type")
  ∧ content_type unavailable_response = None
  ∧ fst (ExonumClient._get_proto_sources sample_client None
           (world_answering (Ret unavailable_response)))
    = Raise (RuntimeError
               "Unsuccessfully attempted to retrieve protobuf sources: b'Service Unavailable'").
Proof. repeat split; vm_compute; reflexivity. Qed.

(** C9: when the answer has status 200 and no content-type header,
    [_get_proto_sources] ends in [KeyError('content-type')]; it does not reach
    the branch that raises the [RuntimeError] with the response body. *)
Theorem get_proto_sources_missing_header self params w response :
  server w (sent w) (GET (system_url self "proto-sources") params) = Ret response ->
  status_code response = 200 ->
  content_type response = None ->
  fst (ExonumClient._get_proto_sources self params w) = Raise (KeyError "content-type")
  ∧ ∀ msg, fst (ExonumClient._get_proto_sources self params w) ≠ Raise (RuntimeError msg).
Proof.
  intros Hanswer Hstatus Hheader.
  assert (fst (ExonumClient._get_proto_sources self params w)
          = Raise (KeyError "content-type")) as Hkey.
  { rewrite get_proto_sources_run. cbv zeta. cbn [fst].
    rewrite Hanswer, unsuccessful_cases, Hheader.
    apply Z.eqb_eq in Hstatus. now rewrite Hstatus. }
  split; [exact Hkey |]. intros msg. rewrite Hkey. discriminate.
Qed.

Lemma get_proto_sources_missing_header_witness :
  fst (ExonumClient._get_proto_sources sample_client None
         (world_answering (Ret bare_response)))
  = Raise (KeyError "content-type")
  ∧ ∀ msg, fst (ExonumClient._get_proto_sources sample_client None
                  (world_answering (Ret bare_response)))
           ≠ Raise (RuntimeError msg).
Proof.
  apply (get_proto_sources_missing_header sample_client None
           (world_answering (Ret bare_response)) bare_response);
    reflexivity.
Defined.

(** ** The requests the client sends *)

Lemma get_proto_sources_sent self params w :
  sent (snd (ExonumClient._get_proto_sources self params w))
  = (sent w ++ [GET (system_url self "proto-sources") params])%list.
Proof. rewrite get_proto_sources_run. reflexivity. Qed.

Lemma get_proto_sources_fetched self params w response elements :
  server w (sent w) (GET (system_url self "proto-sources") params) = Ret response ->
  status_code response = 200 ->
  announces_json response = true ->
  json response = Ret (PList elements) ->
  Forall (fun element => ∃ proto_file, built_from element proto_file) elements ->
  ∃ files, fst (ExonumClient._get_proto_sources self params w) = Ret files
           ∧ Forall2 built_from elements files.
Proof.
  intros Hanswer Hstatus Hjson Hdocument Hfields.
  rewrite get_proto_sources_run. cbv zeta. cbn [fst].
  rewrite Hanswer, unsuccessful_cases.
  apply Z.eqb_eq in Hstatus. rewrite Hstatus. cbn [negb].
  unfold announces_json in Hjson.
  destruct (content_type response) as [value |]; [| discriminate].
  rewrite Hjson, Hdocument. cbn. now apply traverse_built_from.
Qed.

(** C5: [get_main_proto_sources] sends its GET to the proto-sources endpoint
    with no parameters; [get_proto_sources_for_artifact] sends it to the same
    endpoint with the one parameter [artifact], whose value is the decimal
    [runtime_id], a colon and [artifact_name]. Each returns the list that was
    fetched: when the node answers that request with status 200, a JSON
    content type and a list of objects with a name and a content field, the
    result is one [ProtoFile] per element of the answer, in order, built from
    that element's fields. *)
Theorem proto_sources_requests self runtime_id artifact_name w :
  let url := system_url self "proto-sources" in
  let artifact : gmap string PyVal :=
    {[ "artifact" := PStr (str_of_int runtime_id +:+ ":" +:+ artifact_name) ]} in
  (ExonumClient.get_main_proto_sources self w
   = ExonumClient._get_proto_sources self None w
   ∧ sent (snd (ExonumClient.get_main_proto_sources self w))
     = (sent w ++ [GET url None])%list
   ∧ ExonumClient.get_proto_sources_for_artifact self runtime_id artifact_name w
     = ExonumClient._get_proto_sources self (Some artifact) w
   ∧ sent (snd (ExonumClient.get_proto_sources_for_artifact self runtime_id
                  artifact_name w))
     = (sent w ++ [GET url (Some artifact)])%list)
  ∧ (∀ response elements,
       server w (sent w) (GET url None) = Ret response ->
       status_code response = 200 ->
       announces_json response = true ->
       json response = Ret (PList elements) ->
       Forall (fun element => ∃ proto_file, built_from element proto_file) elements ->
       ∃ files, fst (ExonumClient.get_main_proto_sources self w) = Ret files
                ∧ Forall2 built_from elements files)
  ∧ (∀ response elements,
       server w (sent w) (GET url (Some artifact)) = Ret response ->
       status_code response = 200 ->
       announces_json response = true ->
       json response = Ret (PList elements) ->
       Forall (fun element => ∃ proto_file, built_from element proto_file) elements ->
       ∃ files,
         fst (ExonumClient.get_proto_sources_for_artifact self runtime_id artifact_name w)
         = Ret files
         ∧ Forall2 built_from elements files).
Proof.
  cbv zeta.
  rewrite get_for_artifact_is_get_proto_sources, get_main_is_get_proto_sources.
  rewrite !get_proto_sources_sent. split; [repeat split; reflexivity |].
  split; intros response elements; apply get_proto_sources_fetched.
Qed.

Lemma proto_sources_requests_witness :
  (∃ files,
     fst (ExonumClient.get_main_proto_sources sample_client
            (world_answering (Ret sources_response))) = Ret files
     ∧ Forall2 built_from
         [PDict [("name", PStr "runtime.proto"); ("content", PStr "syntax = 'proto3';")]]
         files)
  ∧ (∃ files,
       fst (ExonumClient.get_proto_sources_for_artifact sample_client 0
              "exonum-supervisor:0.11.0" (world_answering (Ret sources_response)))
       = Ret files
       ∧ Forall2 built_from
           [PDict [("name", PStr "runtime.proto"); ("content", PStr "syntax = 'proto3';")]]
           files)
  ∧ sent (snd (ExonumClient.get_proto_sources_for_artifact sample_client 0
                 "exonum-supervisor:0.11.0" (world_answering (Ret sources_response))))
    = [GET "http://127.0.0.1:8080/api/system/v1/proto-sources"
         (Some {[ "artifact" := PStr "0:exonum-supervisor:0.11.0" ]})].
Proof.
  destruct (proto_sources_requests sample_client 0 "exonum-supervisor:0.11.0"
              (world_answering (Ret sources_response)))
    as [[_ [_ [_ Hsent]]] [Hmain Hartifact]].
  assert (Forall (fun element => ∃ proto_file, built_from element proto_file)
            [PDict [("name", PStr "runtime.proto");
                    ("content", PStr "syntax = 'proto3';")]]) as Hfields.
  { constructor; [| constructor].
    exists {| ProtoFile.name := PStr "runtime.proto";
              ProtoFile.content := PStr "syntax = 'proto3';" |}.
    split; reflexivity. }
  split; [| split].
  - apply (Hmain sources_response); try reflexivity; exact Hfields.
  - apply (Hartifact sources_response); try reflexivity; exact Hfields.
  - exact Hsent.
Defined.

(** C4: for a client made by the constructor and a message whose transport
    form is [body], [send_transaction] sends one POST to the transactions
    endpoint with [body] as the data and the single header [content-type:
    application/json], and its outcome is the transport's, as it came. *)
Theorem send_transaction_posts {Msg : Type} `{ExonumMessage Msg}
    hostname public_api_port private_api_port ssl self (message : Msg) body w :
  ExonumClient.__init__ hostname public_api_port private_api_port ssl = Ret self ->
  pack_into_json message = Ret body ->
  ExonumClient.send_transaction self message w
  = let request :=
      POST (transactions_url (if ssl then "https" else "http") hostname public_api_port)
           body {[ "content-type" := "application/json" ]} in
    (server w (sent w) request, after_request request w).
Proof.
  intros Hinit Hbody. rewrite init_returns in Hinit. injection Hinit as <-.
  unfold ExonumClient.send_transaction.
  rewrite (bind_lift_Ret _ _ _ _ Hbody), bind_ret_r. reflexivity.
Qed.

Lemma send_transaction_posts_witness :
  @ExonumClient.send_transaction string packed_message sample_client "{}"
    (world_answering (Ret accepted_response))
  = (Ret accepted_response,
     after_request
       (POST "http://127.0.0.1:8080/api/explorer/v1/transactions" "{}"
             {[ "content-type" := "application/json" ]})
       (world_answering (Ret accepted_response))).
Proof.
  apply (@send_transaction_posts string packed_message "127.0.0.1" 8080 8081 false
           sample_client "{}" "{}" (world_answering (Ret accepted_response)));
    reflexivity.
Defined.

(** C8: [get_blocks] sends one GET to the blocks endpoint. Its parameters
    always have [count]; they have [latest] only for a [latest] that is
    neither [None] nor 0, so not for 0; they have [skip_empty_blocks] and
    [add_blocks_time], as the string [true], only when the flag is set. *)
Theorem get_blocks_request self count latest skip_empty_blocks add_blocks_time w :
  let params :=
    ExonumClient.get_blocks_params count latest skip_empty_blocks add_blocks_time in
  ExonumClient.get_blocks self count latest skip_empty_blocks add_blocks_time w
  = (server w (sent w) (GET (blocks_url self) (Some params)),
     after_request (GET (blocks_url self) (Some params)) w)
  ∧ params !! "count" = Some (PInt count)
  ∧ params !! "latest"
    = match latest with
      | Some n => if (n =? 0)%Z then None else Some (PInt n)
      | None => None
      end
  ∧ ExonumClient.get_blocks_params count (Some 0) skip_empty_blocks add_blocks_time
      !! "latest" = None
  ∧ ExonumClient.get_blocks_params count None skip_empty_blocks add_blocks_time
      !! "latest" = None
  ∧ params !! "skip_empty_blocks" = (if skip_empty_blocks then Some (PStr "true") else None)
  ∧ params !! "add_blocks_time" = (if add_blocks_time then Some (PStr "true") else None).
Proof.
  cbv zeta. split.
  - unfold ExonumClient.get_blocks.
    now rewrite (bind_lift_Ret _ _ _ _ (format_BLOCKS_URL self)).
  - unfold ExonumClient.get_blocks_params. cbn [truthy].
    destruct latest as [n |]; [destruct (n =? 0)%Z |];
      destruct skip_empty_blocks, add_blocks_time; cbn [negb];
      repeat split; simplify_map_eq; reflexivity.
Qed.

(** ** The subscriber *)

Lemma fresh_subscriber_created :
  ExonumClient.create_subscriber sample_client = Ret fresh_subscriber.
Proof. reflexivity. Qed.

Lemma listening_subscriber_reached frames :
  (Subscriber.connect;; Subscriber.set_handler printing_handler;; Subscriber.run)
    (fresh_subscriber, world_streaming frames)
  = (Ret tt, (listening_subscriber frames, world_streaming frames)).
Proof. reflexivity. Qed.

(** A second [run()] is refused by the thread; the error is caught and
    printed. *)
Lemma run_twice_reports frames :
  Subscriber.run (listening_subscriber frames, world_streaming frames)
  = (Ret tt,
     (listening_subscriber frames,
      set_stdout
        (fun _ => ["Error occured during running subscriber thread: "
                   +:+ "cannot set daemon status of active thread"])
        (world_streaming frames))).
Proof. reflexivity. Qed.

(** One turn of the loop on a connected socket with a frame waiting: the
    frame is taken off the socket, and handed to the callback when it is not
    empty. *)
Lemma event_processing_body_turn self w handler data rest :
  Subscriber._handler self = Some handler ->
  connected (Subscriber._ws_client self) = true ->
  incoming (Subscriber._ws_client self) = data :: rest ->
  Subscriber._event_processing_body (self, w)
  = let ws := {| connected := true; incoming := rest;
                 ws_calls := ws_called CallRecv (Subscriber._ws_client self) |} in
    let call := (if frame_truthy data then handler data else mret tt) w in
    (fst call, (Subscriber.set_ws_client ws self, snd call)).
Proof.
  intros Hhandler Hconnected Hincoming.
  unfold Subscriber._event_processing_body, Subscriber.on_ws_client, zoom, ws_recv.
  unfold mbind at 1, M_bind, bind at 1. cbn [fst snd].
  rewrite Hconnected, Hincoming.
  unfold mbind at 1, bind at 1, Subscriber.self_. cbn [fst snd Subscriber.set_ws_client
    Subscriber._handler]. rewrite Hhandler.
  destruct (frame_truthy data); cbv zeta.
  - unfold Subscriber.on_world, zoom. cbn [fst snd].
    destruct (handler data w); reflexivity.
  - reflexivity.
Qed.

Lemma event_processing_turn turns self w handler data rest :
  Subscriber._is_running self = true ->
  Subscriber._handler self = Some handler ->
  connected (Subscriber._ws_client self) = true ->
  incoming (Subscriber._ws_client self) = data :: rest ->
  Subscriber._event_processing (S turns) (self, w)
  = let ws := {| connected := true; incoming := rest;
                 ws_calls := ws_called CallRecv (Subscriber._ws_client self) |} in
    let call := (if frame_truthy data then handler data else mret tt) w in
    match fst call with
    | Ret _ => Subscriber._event_processing turns (Subscriber.set_ws_client ws self, snd call)
    | Raise e => (Raise e, (Subscriber.set_ws_client ws self, snd call))
    | Block => (Block, (Subscriber.set_ws_client ws self, snd call))
    end.
Proof.
  intros Hrunning Hhandler Hconnected Hincoming.
  cbn [Subscriber._event_processing].
  unfold mbind at 1, M_bind, bind at 1, Subscriber.self_. cbn [fst].
  rewrite Hrunning. unfold mbind at 1, bind at 1.
  rewrite (event_processing_body_turn self w handler data rest Hhandler Hconnected
             Hincoming). cbv zeta.
  destruct (fst _); reflexivity.
Qed.

(** C6 (amended): while [_is_running] holds and a callback is registered, the
    loop hands the callback every non-empty frame it receives, inside the turn
    that received it and in the order the socket produced the frames; the
    empty frames are taken off the socket and dropped. *)
Theorem event_processing_delivers turns self w handler frames :
  Subscriber._is_running self = true ->
  Subscriber._handler self = Some handler ->
  connected (Subscriber._ws_client self) = true ->
  incoming (Subscriber._ws_client self) = frames ->
  (turns <= length frames)%nat ->
  let delivered := deliver handler (List.filter frame_truthy (take turns frames)) w in
  fst (Subscriber._event_processing turns (self, w))
  = outcome_map (fun _ => Subscriber.Looping) (fst delivered)
  ∧ snd (snd (Subscriber._event_processing turns (self, w))) = snd delivered.
Proof.
  revert self w frames.
  induction turns as [| turns IH]; intros self w frames Hrunning Hhandler Hconnected
    Hincoming Hturns; cbv zeta.
  - cbn [Subscriber._event_processing]. unfold mbind, M_bind, bind, Subscriber.self_.
    cbn [fst]. rewrite Hrunning. split; reflexivity.
  - destruct frames as [| data rest]; [cbn in Hturns; lia |].
    rewrite (event_processing_turn turns self w handler data rest Hrunning Hhandler
               Hconnected Hincoming). cbv zeta.
    cbn [take List.filter].
    set (ws := {| connected := true; incoming := rest;
                  ws_calls := ws_called CallRecv (Subscriber._ws_client self) |}).
    assert (∀ w',
      fst (Subscriber._event_processing turns (Subscriber.set_ws_client ws self, w'))
      = outcome_map (fun _ => Subscriber.Looping)
          (fst (deliver handler (List.filter frame_truthy (take turns rest)) w'))
      ∧ snd (snd (Subscriber._event_processing turns
                    (Subscriber.set_ws_client ws self, w')))
        = snd (deliver handler (List.filter frame_truthy (take turns rest)) w')) as Hrest.
    { intros w'. apply IH; try assumption; try reflexivity. cbn in Hturns. lia. }
    destruct (frame_truthy data).
    + unfold deliver. cbn [for_each]. unfold bind.
      destruct (handler data w) as [[[] | e |] w']; cbn [fst snd]; try (split; reflexivity).
      apply Hrest.
    + cbn [fst snd]. apply (Hrest w).
Qed.

Lemma event_processing_delivers_witness :
  fst (Subscriber._event_processing 3
         (listening_subscriber three_frames, world_streaming three_frames))
  = Ret Subscriber.Looping
  ∧ stdout (snd (snd (Subscriber._event_processing 3
                        (listening_subscriber three_frames, world_streaming three_frames))))
    = ["block 1"; "block 2"].
Proof.
  destruct (event_processing_delivers 3 (listening_subscriber three_frames)
              (world_streaming three_frames) printing_handler three_frames
              eq_refl eq_refl eq_refl eq_refl) as [Hout Hworld].
  - cbn. lia.
  - split; [rewrite Hout | rewrite Hworld]; reflexivity.
Defined.

(** C6 as stated fails: of the three frames the socket produced the callback
    got the first and the third; the empty second frame was skipped. *)
Lemma event_processing_skips_empty_frame :
  ¬ (∀ turns self w handler frames,
       Subscriber._is_running self = true ->
       Subscriber._handler self = Some handler ->
       connected (Subscriber._ws_client self) = true ->
       incoming (Subscriber._ws_client self) = frames ->
       (turns <= length frames)%nat ->
       snd (snd (Subscriber._event_processing turns (self, w)))
       = snd (deliver handler (take turns frames) w)).
Proof.
  intros Hclaim.
  specialize (Hclaim 3%nat (listening_subscriber three_frames)
                (world_streaming three_frames) printing_handler three_frames
                eq_refl eq_refl eq_refl eq_refl).
  assert (3 <= length three_frames)%nat as Hturns by (cbn; lia).
  apply Hclaim in Hturns. apply (f_equal stdout) in Hturns.
  vm_compute in Hturns. discriminate.
Qed.

(** C7 (amended): while [_is_running] holds, [wait_for_new_block] prints the
    warning and returns; it makes no call on the socket and takes no frame
    off it. Otherwise it is one raw [recv]: the callback is not involved and
    the world is as it was; the call returns once a frame has come, waits
    while none has, and raises what [recv] raises when the socket is not
    connected. It raises in no other case. *)
Theorem wait_for_new_block_outcome self w :
  let ws := Subscriber._ws_client self in
  Subscriber.wait_for_new_block (self, w)
  = (if Subscriber._is_running self
     then (Ret tt, (self, set_stdout (fun out => (out ++ [warning])%list) w))
     else (outcome_map (fun _ => tt) (fst (ws_recv ws)),
           (Subscriber.set_ws_client (snd (ws_recv ws)) self, w)))
  ∧ fst (Subscriber.wait_for_new_block (self, w))
    = (if Subscriber._is_running self then Ret tt
       else if connected ws then
              match incoming ws with
              | _ :: _ => Ret tt
              | [] => Block
              end
            else Raise WebSocketConnectionClosedException)
  ∧ incoming (Subscriber._ws_client (fst (snd (Subscriber.wait_for_new_block (self, w)))))
    = (if Subscriber._is_running self then incoming ws
       else if connected ws then tail (incoming ws) else incoming ws).
Proof.
  cbv zeta.
  assert (Subscriber.wait_for_new_block (self, w)
          = (if Subscriber._is_running self
             then (Ret tt, (self, set_stdout (fun out => (out ++ [warning])%list) w))
             else (outcome_map (fun _ => tt) (fst (ws_recv (Subscriber._ws_client self))),
                   (Subscriber.set_ws_client (snd (ws_recv (Subscriber._ws_client self)))
                      self, w)))) as Hrun.
  { unfold Subscriber.wait_for_new_block.
    unfold mbind at 1, M_bind, bind at 1, Subscriber.self_. cbn [fst].
    destruct (Subscriber._is_running self); [reflexivity |].
    unfold mbind, bind, Subscriber.on_ws_client, zoom. cbn [fst snd].
    destruct (ws_recv (Subscriber._ws_client self)) as [[data | e |] ws']; reflexivity. }
  split; [exact Hrun |]. rewrite Hrun.
  destruct (Subscriber._is_running self); [split; reflexivity |].
  unfold ws_recv. cbn [fst snd].
  destruct (connected (Subscriber._ws_client self));
    destruct (incoming (Subscriber._ws_client self)); split; reflexivity.
Qed.

(** C7 as stated fails in its last part: on a subscriber that was never
    connected and is not running, [wait_for_new_block] raises. *)
Lemma wait_for_new_block_can_raise :
  ¬ (∀ self w, raises (fst (Subscriber.wait_for_new_block (self, w))) = false).
Proof.
  intros Hclaim.
  specialize (Hclaim fresh_subscriber (world_streaming three_frames)).
  vm_compute in Hclaim. discriminate.
Qed.

Lemma stop_when_stopped self w :
  Subscriber._connected self = false ->
  Subscriber._is_running self = false ->
  Subscriber.stop (self, w) = (Ret tt, (self, w)).
Proof.
  intros Hconnected Hrunning. unfold Subscriber.stop.
  unfold mbind, M_bind, bind, Subscriber.self_. cbn [fst].
  rewrite Hconnected. cbn [mret M_ret ret fst]. rewrite Hrunning. reflexivity.
Qed.

(** What [stop] does from any state: it deals with the connection, and then,
    when [_is_running] holds, fails on [isAlive] before it joins the thread or
    clears the flag. *)
Lemma stop_run self w :
  Subscriber.stop (self, w)
  = (if Subscriber._is_running self then Raise AttributeError else Ret tt,
     (disconnected self, w)).
Proof.
  destruct self as [address running is_connected ws thread handler].
  destruct is_connected, running; reflexivity.
Qed.

Lemma disconnected_flags self :
  Subscriber._connected (disconnected self) = false
  ∧ Subscriber._is_running (disconnected self) = Subscriber._is_running self
  ∧ Subscriber._thread (disconnected self) = Subscriber._thread self
  ∧ disconnected (disconnected self) = disconnected self.
Proof.
  destruct self as [address running is_connected ws thread handler].
  destruct is_connected; repeat split; reflexivity.
Qed.

(** C10, at a subscriber on which [connect], [set_handler] and [run] were
    called: [stop] closes the socket and then raises [AttributeError] at
    [self._thread.isAlive()]; the thread is not joined and [_is_running] is
    still true, where the claim has it false after one call. A second [stop]
    raises again and changes nothing. *)
Theorem stop_leaves_running :
  ∃ self',
    Subscriber.stop (listening_subscriber three_frames, world_streaming three_frames)
    = (Raise AttributeError, (self', world_streaming three_frames))
    ∧ Subscriber._is_running self' = true
    ∧ Subscriber._connected self' = false
    ∧ ws_calls (Subscriber._ws_client self') = [CallConnect websocket_address; CallClose]
    ∧ joins (Subscriber._thread self') = 0%nat
    ∧ state (Subscriber._thread self') = Started
    ∧ Subscriber.stop (self', world_streaming three_frames)
      = (Raise AttributeError, (self', world_streaming three_frames)).
Proof. eexists. repeat split. Qed.

(** ** The schema loader *)

Lemma protobuf_loader_when_live self w :
  loader_entity w = true ->
  ExonumClient.protobuf_loader self w = (Raise ProtobufLoaderEntityExists, w).
Proof.
  intros Hlive. unfold ExonumClient.protobuf_loader, ProtobufLoader.new.
  unfold mbind, M_bind, bind, get. now rewrite Hlive.
Qed.

Lemma protobuf_loader_when_free self w :
  loader_entity w = false ->
  ExonumClient.protobuf_loader self w
  = (Ret {| ProtobufLoader.client := self |}, set_loader_entity true w).
Proof.
  intros Hfree. unfold ExonumClient.protobuf_loader, ProtobufLoader.new.
  unfold mbind, M_bind, bind, get. now rewrite Hfree.
Qed.

(** Requests to the node leave the loader slot alone. *)
Lemma http_keeps_loader_entity r w : loader_entity (snd (http r w)) = loader_entity w.
Proof. reflexivity. Qed.

Lemma live_loaders_invariant self calls live w :
  (loader_entity w = false ∧ live = [])
  ∨ (loader_entity w = true ∧ length live = 1%nat) ->
  (length (fst (live_loaders self calls live w)) <= 1)%nat.
Proof.
  revert live w. induction calls as [| [|] rest IH]; intros live w Hinv.
  - cbn. destruct Hinv as [[_ ->] | [_ ->]]; cbn; lia.
  - cbn [live_loaders]. destruct Hinv as [[Hfree ->] | [Hlive Hone]].
    + rewrite (protobuf_loader_when_free self w Hfree). apply IH. right. split; reflexivity.
    + rewrite (protobuf_loader_when_live self w Hlive). apply IH. right. now split.
  - cbn [live_loaders]. destruct Hinv as [[Hfree ->] | [Hlive Hone]].
    + apply IH. left. now split.
    + destruct live as [| loader [| ? ?]]; try discriminate.
      apply IH. left. split; reflexivity.
Qed.

(** C1: in a process with no live loader, whatever sequence of requests for a
    loader and of closes follows, at most one loader is live at a time. The
    first request gives a loader; as long as it is live, a request for another
    fails with [ProtobufLoaderEntityExists] and changes nothing; once it is
    closed, a request succeeds again. *)
Theorem protobuf_loader_single_instance self other again w :
  loader_entity w = false ->
  (∀ calls, (length (fst (live_loaders self calls [] w)) <= 1)%nat)
  ∧ ∃ loader,
      ExonumClient.protobuf_loader self w = (Ret loader, set_loader_entity true w)
      ∧ (∀ w1, loader_entity w1 = true ->
               ExonumClient.protobuf_loader other w1 = (Raise ProtobufLoaderEntityExists, w1))
      ∧ ExonumClient.protobuf_loader other (set_loader_entity true w)
        = (Raise ProtobufLoaderEntityExists, set_loader_entity true w)
      ∧ ∀ w1, ProtobufLoader.close loader w1 = (Ret tt, set_loader_entity false w1)
              ∧ returns (fst (ExonumClient.protobuf_loader again
                                (snd (ProtobufLoader.close loader w1)))) = true.
Proof.
  intros Hfree. split.
  - intros calls. apply live_loaders_invariant. left. now split.
  - exists {| ProtobufLoader.client := self |}. split; [| split; [| split]].
    + now apply protobuf_loader_when_free.
    + intros w1. apply protobuf_loader_when_live.
    + now apply protobuf_loader_when_live.
    + intros w1. split; [reflexivity |].
      now rewrite (protobuf_loader_when_free again (snd (ProtobufLoader.close _ w1))).
Qed.

Lemma protobuf_loader_single_instance_witness :
  (∀ calls,
     (length (fst (live_loaders sample_client calls [] (world_answering Block))) <= 1)%nat)
  ∧ ∃ loader,
      ExonumClient.protobuf_loader sample_client (world_answering Block)
      = (Ret loader, set_loader_entity true (world_answering Block))
      ∧ (∀ w1, loader_entity w1 = true ->
               ExonumClient.protobuf_loader sample_client w1
               = (Raise ProtobufLoaderEntityExists, w1))
      ∧ ExonumClient.protobuf_loader sample_client
          (set_loader_entity true (world_answering Block))
        = (Raise ProtobufLoaderEntityExists, set_loader_entity true (world_answering Block))
      ∧ ∀ w1, ProtobufLoader.close loader w1 = (Ret tt, set_loader_entity false w1)
              ∧ returns (fst (ExonumClient.protobuf_loader sample_client
                                (snd (ProtobufLoader.close loader w1)))) = true.
Proof.
  apply (protobuf_loader_single_instance sample_client sample_client sample_client
           (world_answering Block)).
  reflexivity.
Defined.

(** * Further properties of [client.py] *)

(** ** Endpoints *)

Lemma append_assoc (a b c : string) : (a +:+ b) +:+ c = a +:+ (b +:+ c).
Proof.
  induction a as [| x a IH]; [reflexivity |].
  change (String x ((a +:+ b) +:+ c) = String x (a +:+ (b +:+ c))). now rewrite IH.
Qed.

Lemma format_SERVICE_URL schema hostname port service_name :
  format _SERVICE_URL [schema; hostname; port; service_name]
  = Ret (schema +:+ "://" +:+ hostname +:+ ":" +:+ port +:+ "/api/services/"
         +:+ service_name +:+ "/").
Proof. reflexivity. Qed.

Lemma service_endpoint_returns self service_name sub_uri private :
  ExonumClient.service_endpoint self service_name sub_uri private
  = Ret (service_url self
           (if private then ExonumClient.private_api_port self
            else ExonumClient.public_api_port self)
           service_name sub_uri).
Proof.
  unfold ExonumClient.service_endpoint, service_url.
  rewrite format_SERVICE_URL. unfold mbind, Outcome_bind, outcome_bind.
  rewrite !append_assoc. destruct private; reflexivity.
Qed.

(** X1: for a client made by the constructor, [service_endpoint] always
    returns, whatever the names contain: the URL is the scheme chosen by
    [ssl], the host, the public port (the private one when [private] is set),
    [/api/services/<service_name>/] and the sub-URI appended as it is. *)
Theorem service_endpoint_url hostname public_api_port private_api_port ssl self
    service_name sub_uri private :
  ExonumClient.__init__ hostname public_api_port private_api_port ssl = Ret self ->
  ExonumClient.service_endpoint self service_name sub_uri private
  = Ret ((if ssl then "https" else "http") +:+ "://" +:+ hostname +:+ ":"
         +:+ str_of_int (if private then private_api_port else public_api_port)
         +:+ "/api/services/" +:+ service_name +:+ "/" +:+ sub_uri).
Proof.
  intros Hinit. rewrite init_returns in Hinit. injection Hinit as <-.
  rewrite service_endpoint_returns. unfold service_url. cbn.
  destruct private; reflexivity.
Qed.

Lemma service_endpoint_url_witness :
  ExonumClient.service_endpoint sample_client "supervisor" "deploy-artifact" true
  = Ret "http://127.0.0.1:8081/api/services/supervisor/deploy-artifact".
Proof.
  apply (service_endpoint_url "127.0.0.1" 8080 8081 false sample_client
           "supervisor" "deploy-artifact" true).
  reflexivity.
Defined.

(** X2: [get_service] sends one GET without parameters, and [post_service]
    one POST with the data as given and the single header [content-type:
    application/json], both to the URL [service_endpoint] gives for the same
    arguments; each returns the transport's outcome as it came. *)
Theorem service_requests self service_name sub_uri data (private : bool) w :
  let url := service_url self
               (if private then ExonumClient.private_api_port self
                else ExonumClient.public_api_port self) service_name sub_uri in
  ExonumClient.service_endpoint self service_name sub_uri private = Ret url
  ∧ ExonumClient.get_service self service_name sub_uri private w
    = only_sends (GET url None) w
  ∧ ExonumClient.post_service self service_name sub_uri data private w
    = only_sends (POST url data {[ "content-type" := "application/json" ]}) w.
Proof.
  cbv zeta. split; [apply service_endpoint_returns |].
  unfold ExonumClient.get_service, ExonumClient.post_service.
  rewrite !(bind_lift_Ret _ _ _ _ (service_endpoint_returns self service_name sub_uri
                                     private)).
  split; reflexivity.
Qed.

(** X3: [health_info], [mempool], [user_agent] and [available_services] each
    send one GET without parameters to [/api/system/v1/<name>] on the public
    port, [available_services] to the name [services], and return the
    transport's outcome as it came. *)
Theorem system_requests self w :
  ExonumClient.health_info self w = only_sends (GET (system_url self "healthcheck") None) w
  ∧ ExonumClient.mempool self w = only_sends (GET (system_url self "mempool") None) w
  ∧ ExonumClient.user_agent self w = only_sends (GET (system_url self "user_agent") None) w
  ∧ ExonumClient.available_services self w
    = only_sends (GET (system_url self "services") None) w.
Proof.
  unfold ExonumClient.health_info, ExonumClient.mempool, ExonumClient.user_agent,
    ExonumClient.available_services.
  fold (ExonumClient._system_endpoint self "services").
  rewrite (bind_lift_Ret _ _ _ _ (system_endpoint_url self "healthcheck")),
    (bind_lift_Ret _ _ _ _ (system_endpoint_url self "mempool")),
    (bind_lift_Ret _ _ _ _ (system_endpoint_url self "user_agent")),
    (bind_lift_Ret _ _ _ _ (system_endpoint_url self "services")).
  repeat split; reflexivity.
Qed.

(** X4: for a client made by the constructor, [get_tx_info] sends its GET,
    with the one parameter [hash], to the very URL [send_transaction] posts
    to; [get_block] sends its GET, with the one parameter [height], to the
    block endpoint beside it. *)
Theorem explorer_requests hostname public_api_port private_api_port ssl self
    tx_hash height w :
  ExonumClient.__init__ hostname public_api_port private_api_port ssl = Ret self ->
  ExonumClient.get_tx_info self tx_hash w
  = only_sends (GET (ExonumClient.tx_url self) (Some {[ "hash" := PStr tx_hash ]})) w
  ∧ ExonumClient.get_block self height w
    = only_sends (GET (block_url self) (Some {[ "height" := PInt height ]})) w.
Proof.
  intros Hinit. rewrite init_returns in Hinit. injection Hinit as <-.
  split; reflexivity.
Qed.

Lemma explorer_requests_witness :
  ExonumClient.get_tx_info sample_client "713de312" accepting_world
  = only_sends (GET "http://127.0.0.1:8080/api/explorer/v1/transactions"
                    (Some {[ "hash" := PStr "713de312" ]})) accepting_world
  ∧ ExonumClient.get_block sample_client 2 accepting_world
    = only_sends (GET "http://127.0.0.1:8080/api/explorer/v1/block"
                      (Some {[ "height" := PInt 2 ]})) accepting_world.
Proof.
  apply (explorer_requests "127.0.0.1" 8080 8081 false sample_client "713de312" 2
           accepting_world).
  reflexivity.
Defined.

(** X5: for a client made by the constructor, [create_subscriber] gives a
    subscriber for [ws://<hostname>:<public port>/api/explorer/v1/blocks/subscribe],
    whether or not the client uses [ssl]; it is not connected, not running and
    has no callback. *)
Theorem create_subscriber_address hostname public_api_port private_api_port ssl self :
  ExonumClient.__init__ hostname public_api_port private_api_port ssl = Ret self ->
  ExonumClient.create_subscriber self
  = Ret {| Subscriber._address :=
             "ws://" +:+ hostname +:+ ":" +:+ str_of_int public_api_port
             +:+ "/api/explorer/v1/blocks/subscribe";
           Subscriber._is_running := false;
           Subscriber._connected := false;
           Subscriber._ws_client := WebSocket_new;
           Subscriber._thread := Thread_new;
           Subscriber._handler := None |}.
Proof.
  intros Hinit. rewrite init_returns in Hinit. injection Hinit as <-. reflexivity.
Qed.

Lemma create_subscriber_address_witness :
  ExonumClient.create_subscriber
    {| ExonumClient.schema := "https"; ExonumClient.hostname := "node.example";
       ExonumClient.public_api_port := 443; ExonumClient.private_api_port := 444;
       ExonumClient.tx_url := "https://node.example:443/api/explorer/v1/transactions" |}
  = Ret {| Subscriber._address := "ws://node.example:443/api/explorer/v1/blocks/subscribe";
           Subscriber._is_running := false;
           Subscriber._connected := false;
           Subscriber._ws_client := WebSocket_new;
           Subscriber._thread := Thread_new;
           Subscriber._handler := None |}.
Proof.
  apply (create_subscriber_address "node.example" 443 444 true). reflexivity.
Defined.

(** ** Submitting transactions *)

Lemma send_transaction_run {Msg : Type} `{ExonumMessage Msg} self (message : Msg) w :
  ExonumClient.send_transaction self message w
  = match pack_into_json message with
    | Ret body => only_sends (submission self body) w
    | Raise e => (Raise e, w)
    | Block => (Block, w)
    end.
Proof.
  unfold ExonumClient.send_transaction.
  destruct (pack_into_json message) as [body | e |] eqn:Hpack.
  - rewrite (bind_lift_Ret _ _ _ _ eq_refl), bind_ret_r. reflexivity.
  - reflexivity.
  - reflexivity.
Qed.

Lemma send_transactions_cons {Msg : Type} `{ExonumMessage Msg} self (message : Msg)
    rest w :
  ExonumClient.send_transactions self (message :: rest) w
  = match ExonumClient.send_transaction self message w with
    | (Ret response, w1) =>
        match ExonumClient.send_transactions self rest w1 with
        | (Ret responses, w2) => (Ret (response :: responses), w2)
        | (Raise e, w2) => (Raise e, w2)
        | (Block, w2) => (Block, w2)
        end
    | (Raise e, w1) => (Raise e, w1)
    | (Block, w1) => (Block, w1)
    end.
Proof.
  unfold ExonumClient.send_transactions. cbn [comprehension]. unfold bind at 1.
  destruct (ExonumClient.send_transaction self message w) as [[response | e |] w1];
    reflexivity.
Qed.

(** X6: [send_transactions] submits the messages one by one in their order:
    what it has sent when it ends is exactly the submissions of the packed
    forms of some initial part of the messages, and when it returns, that part
    is all of them and there is one response per message. *)
Theorem send_transactions_in_order {Msg : Type} `{ExonumMessage Msg} self
    (messages : list Msg) w :
  ∃ bodies,
    Forall2 (fun message body => pack_into_json message = Ret body)
      (take (length bodies) messages) bodies
    ∧ (length bodies <= length messages)%nat
    ∧ sent (snd (ExonumClient.send_transactions self messages w))
      = (sent w ++ map (submission self) bodies)%list
    ∧ ∀ responses,
        fst (ExonumClient.send_transactions self messages w) = Ret responses ->
        length bodies = length messages ∧ length responses = length messages.
Proof.
  revert w. induction messages as [| message rest IH]; intros w.
  - exists []. cbn. rewrite app_nil_r. split; [constructor | split; [lia | split]].
    + reflexivity.
    + intros responses Hreturned. injection Hreturned as <-. split; reflexivity.
  - rewrite send_transactions_cons, send_transaction_run.
    destruct (pack_into_json message) as [body | e |] eqn:Hpack.
    + unfold only_sends.
      destruct (server w (sent w) (submission self body)) as [response | e |].
      * destruct (IH (after_request (submission self body) w))
          as [bodies [Hpacked [Hlength [Hsent Hall]]]].
        exists (body :: bodies). split; [| split; [| split]].
        -- cbn. constructor; assumption.
        -- cbn. lia.
        -- destruct (ExonumClient.send_transactions self rest _) as [[rs | e |] w2];
             cbn [snd] in *; rewrite Hsent; cbn; now rewrite <- app_assoc.
        -- intros responses Hreturned.
           destruct (ExonumClient.send_transactions self rest _) as [[rs | e |] w2];
             cbn [fst] in *; try discriminate.
           injection Hreturned as <-. destruct (Hall rs eq_refl) as [Hbodies Hrs].
           cbn [length]. split; lia.
      * exists [body]. cbn. split; [repeat constructor; assumption |].
        split; [lia |]. split; [reflexivity | discriminate].
      * exists [body]. cbn. split; [repeat constructor; assumption |].
        split; [lia |]. split; [reflexivity | discriminate].
    + exists []. cbn. rewrite app_nil_r. split; [constructor |].
      split; [lia |]. split; [reflexivity | discriminate].
    + exists []. cbn. rewrite app_nil_r. split; [constructor |].
      split; [lia |]. split; [reflexivity | discriminate].
Qed.

(** X7: when the node answers every request and the first message that has
    no transport form comes after [sendable], [send_transactions] raises what
    packing that message raises, having submitted the messages of [sendable]
    and nothing of what follows. *)
Theorem send_transactions_stops {Msg : Type} `{ExonumMessage Msg} self
    (sendable : list Msg) bodies (unsendable : Msg) (following : list Msg) e w :
  (∀ log request, returns (server w log request) = true) ->
  Forall2 (fun message body => pack_into_json message = Ret body) sendable bodies ->
  pack_into_json unsendable = Raise e ->
  fst (ExonumClient.send_transactions self (sendable ++ unsendable :: following) w)
  = Raise e
  ∧ sent (snd (ExonumClient.send_transactions self
                 (sendable ++ unsendable :: following) w))
    = (sent w ++ map (submission self) bodies)%list.
Proof.
  intros Hanswers Hpacked Hfails. revert w Hanswers.
  induction Hpacked as [| message body sendable bodies Hpack _ IH]; intros w Hanswers.
  - cbn [app]. rewrite send_transactions_cons, send_transaction_run, Hfails.
    cbn. now rewrite app_nil_r.
  - cbn [app]. rewrite send_transactions_cons, send_transaction_run, Hpack.
    unfold only_sends.
    pose proof (Hanswers (sent w) (submission self body)) as Hanswer.
    destruct (server w (sent w) (submission self body)) as [response | e' |];
      try discriminate.
    destruct (IH (after_request (submission self body) w) Hanswers) as [Hout Hsent].
    destruct (ExonumClient.send_transactions self _ _) as [[rs | e' |] w2];
      cbn [fst snd] in *; try discriminate.
    split; [assumption |]. rewrite Hsent. cbn. now rewrite <- app_assoc.
Qed.

Lemma send_transactions_in_order_witness :
  ∃ bodies,
    Forall2 (fun message body => @pack_into_json _ unsigned_message message = Ret body)
      (take (length bodies) [Some "{}"; None; Some "{}"]) bodies
    ∧ (length bodies <= 3)%nat
    ∧ sent (snd (@ExonumClient.send_transactions _ unsigned_message sample_client
                   [Some "{}"; None; Some "{}"] accepting_world))
      = ([] ++ map (submission sample_client) bodies)%list
    ∧ ∀ responses,
        fst (@ExonumClient.send_transactions _ unsigned_message sample_client
               [Some "{}"; None; Some "{}"] accepting_world) = Ret responses ->
        length bodies = 3%nat ∧ length responses = 3%nat.
Proof.
  exact (@send_transactions_in_order _ unsigned_message sample_client
           [Some "{}"; None; Some "{}"] accepting_world).
Defined.

Lemma send_transactions_stops_witness :
  fst (@ExonumClient.send_transactions _ unsigned_message sample_client
         ([Some "{}"] ++ None :: [Some "{}"]) accepting_world)
  = Raise TypeError
  ∧ sent (snd (@ExonumClient.send_transactions _ unsigned_message sample_client
                 ([Some "{}"] ++ None :: [Some "{}"]) accepting_world))
    = ([] ++ map (submission sample_client) ["{}"])%list.
Proof.
  apply (@send_transactions_stops _ unsigned_message sample_client
           [Some "{}"] ["{}"] None [Some "{}"] TypeError accepting_world).
  - intros log request. reflexivity.
  - repeat constructor.
  - reflexivity.
Defined.

(** ** The parameters of [get_blocks] *)

(** X8: the parameters [get_blocks] sends have the key [count], the key
    [latest] when [latest] is an integer other than 0, the keys
    [skip_empty_blocks] and [add_blocks_time] when their flags are set, and
    no other key. *)
Theorem get_blocks_params_keys count latest (skip_empty_blocks add_blocks_time : bool) :
  dom (ExonumClient.get_blocks_params count latest skip_empty_blocks add_blocks_time)
  = ({[ "count" ]}
     ∪ (match latest with
        | Some n => if (n =? 0)%Z then ∅ else {[ "latest" ]}
        | None => ∅
        end)
     ∪ (if skip_empty_blocks then {[ "skip_empty_blocks" ]} else ∅)
     ∪ (if add_blocks_time then {[ "add_blocks_time" ]} else ∅) : gset string).
Proof.
  unfold ExonumClient.get_blocks_params. cbn [truthy].
  destruct latest as [n |]; [destruct (n =? 0)%Z |];
    destruct skip_empty_blocks, add_blocks_time; cbn [negb];
    rewrite ?dom_insert_L, dom_empty_L; set_solver.
Qed.

(** ** More on fetching the proto sources *)

Lemma traverse_stops {A B} (f : A -> Outcome B) (complete : list A) (bad : A)
    (following : list A) e :
  Forall (fun x => ∃ y, f x = Ret y) complete ->
  f bad = Raise e ->
  traverse f (complete ++ bad :: following) = Raise e.
Proof.
  intros Hcomplete Hbad. induction Hcomplete as [| x complete [y Hy] _ IH].
  - cbn. now rewrite Hbad.
  - cbn [app traverse]. now rewrite Hy, IH.
Qed.

Lemma make_proto_file_built_from element :
  (∃ proto_file, built_from element proto_file) ->
  ∃ proto_file, ExonumClient.make_proto_file element = Ret proto_file.
Proof.
  intros [[name content] [Hname Hcontent]]. exists (ProtoFile.Build_t name content).
  unfold ExonumClient.make_proto_file. cbn in Hname, Hcontent. rewrite Hname.
  unfold mbind at 1, Outcome_bind, outcome_bind. now rewrite Hcontent.
Qed.

Lemma get_proto_sources_accepted self params w response :
  server w (sent w) (GET (system_url self "proto-sources") params) = Ret response ->
  ExonumClient.unsuccessful response = Ret false ->
  fst (ExonumClient._get_proto_sources self params w) = read_proto_files response.
Proof.
  intros Hanswer Hok. rewrite get_proto_sources_run. cbv zeta. cbn [fst].
  rewrite Hanswer, Hok. unfold read_proto_files.
  destruct (json response) as [document | e |]; reflexivity.
Qed.

Lemma unsuccessful_announces_json response :
  status_code response = 200 ->
  announces_json response = true ->
  ExonumClient.unsuccessful response = Ret false.
Proof.
  intros Hstatus Hjson. rewrite unsuccessful_cases.
  apply Z.eqb_eq in Hstatus. rewrite Hstatus. cbn [negb].
  unfold announces_json in Hjson.
  destruct (content_type response); [now rewrite Hjson | discriminate].
Qed.

(** X9: the fetch is all or nothing. When the answer passes the test and its
    document is a list in which some element, after elements that are
    complete, has no [name] field, or has one but no [content] field, the
    fetch raises what that lookup raises ([KeyError('name')] before
    [KeyError('content')]) and returns no proto file at all. *)
Theorem get_proto_sources_bad_element self params w response complete bad following e :
  server w (sent w) (GET (system_url self "proto-sources") params) = Ret response ->
  status_code response = 200 ->
  announces_json response = true ->
  json response = Ret (PList (complete ++ bad :: following)) ->
  Forall (fun element => ∃ proto_file, built_from element proto_file) complete ->
  (getitem bad "name" = Raise e
   ∨ ∃ name, getitem bad "name" = Ret name ∧ getitem bad "content" = Raise e) ->
  fst (ExonumClient._get_proto_sources self params w) = Raise e.
Proof.
  intros Hanswer Hstatus Hjson Hdocument Hcomplete Hbad.
  rewrite (get_proto_sources_accepted self params w response Hanswer
             (unsuccessful_announces_json response Hstatus Hjson)).
  unfold read_proto_files. rewrite Hdocument. cbn.
  apply traverse_stops.
  - eapply Forall_impl; [exact Hcomplete |]. intros element.
    apply make_proto_file_built_from.
  - unfold ExonumClient.make_proto_file.
    destruct Hbad as [Hname | [name [Hname Hcontent]]]; rewrite Hname;
      [reflexivity |].
    unfold mbind at 1, Outcome_bind, outcome_bind. now rewrite Hcontent.
Qed.

Lemma get_proto_sources_bad_element_witness :
  fst (ExonumClient._get_proto_sources sample_client None
         (world_answering (Ret incomplete_response)))
  = Raise (KeyError "content").
Proof.
  apply (get_proto_sources_bad_element sample_client None
           (world_answering (Ret incomplete_response)) incomplete_response
           [PDict [("name", PStr "runtime.proto"); ("content", PStr "syntax = 'proto3';")]]
           (PDict [("name", PStr "helpers.proto")])
           [PDict [("content", PStr "message Hash {}")]]
           (KeyError "content") eq_refl).
  - reflexivity.
  - vm_compute. reflexivity.
  - reflexivity.
  - constructor; [| constructor].
    exists {| ProtoFile.name := PStr "runtime.proto";
              ProtoFile.content := PStr "syntax = 'proto3';" |}.
    split; reflexivity.
  - right. exists (PStr "helpers.proto"). split; reflexivity.
Defined.

(** X10: when the answer passes the test but its document is not a list -
    [null], a boolean, a number, or an object or string that is not empty -
    the fetch raises [TypeError], not the [RuntimeError] that carries the
    body. *)
Theorem get_proto_sources_not_a_list self params w response document :
  server w (sent w) (GET (system_url self "proto-sources") params) = Ret response ->
  status_code response = 200 ->
  announces_json response = true ->
  json response = Ret document ->
  unusable_document document = true ->
  fst (ExonumClient._get_proto_sources self params w) = Raise TypeError.
Proof.
  intros Hanswer Hstatus Hjson Hdocument Hunusable.
  rewrite (get_proto_sources_accepted self params w response Hanswer
             (unsuccessful_announces_json response Hstatus Hjson)).
  unfold read_proto_files. rewrite Hdocument. cbn.
  destruct document as [| b | z | text | b | l | items]; try discriminate;
    try reflexivity.
  - destruct text; [discriminate | reflexivity].
  - destruct b; [discriminate | reflexivity].
  - destruct items as [| [key value] items]; [discriminate | reflexivity].
Qed.

Lemma get_proto_sources_not_a_list_witness :
  fst (ExonumClient._get_proto_sources sample_client None
         (world_answering (Ret error_object_response)))
  = Raise TypeError.
Proof.
  apply (get_proto_sources_not_a_list sample_client None
           (world_answering (Ret error_object_response)) error_object_response
           (PDict [("error", PStr "busy")]) eq_refl).
  - reflexivity.
  - vm_compute. reflexivity.
  - reflexivity.
  - reflexivity.
Defined.

Lemma prefix_append (needle rest : string) : String.prefix needle (needle +:+ rest) = true.
Proof.
  induction needle as [| c needle IH]; [destruct rest; reflexivity |].
  change (String c needle +:+ rest) with (String c (needle +:+ rest)).
  cbn [String.prefix]. destruct (ascii_dec c c); [exact IH | contradiction].
Qed.

Lemma str_contains_infix (needle before after : string) :
  str_contains needle (before +:+ needle +:+ after) = true.
Proof.
  induction before as [| c before IH].
  - change ("" +:+ needle +:+ after) with (needle +:+ after).
    destruct (needle +:+ after) eqn:Hhay; cbn [str_contains];
      rewrite <- Hhay, prefix_append; reflexivity.
  - change (String c before +:+ needle +:+ after)
      with (String c (before +:+ needle +:+ after)).
    cbn [str_contains]. rewrite IH. apply orb_true_r.
Qed.

(** X11: the test on the content type looks the header up without regard to
    the case of its name and asks only that [application/json] occurs in the
    value. So an answer with status 200 whose header, under any
    capitalisation of [content-type], has a value with [application/json]
    somewhere in it passes, and the outcome of the fetch is that of reading the
    proto files out of its document. *)
Theorem get_proto_sources_header_match self params w response key before after others :
  server w (sent w) (GET (system_url self "proto-sources") params) = Ret response ->
  status_code response = 200 ->
  lower key = "content-type" ->
  headers response = cid_setitem key (before +:+ "application/json" +:+ after) others ->
  fst (ExonumClient._get_proto_sources self params w) = read_proto_files response.
Proof.
  intros Hanswer Hstatus Hkey Hheaders.
  apply (get_proto_sources_accepted self params w response Hanswer).
  apply unsuccessful_announces_json; [assumption |].
  unfold announces_json, content_type. rewrite Hheaders. unfold cid_setitem.
  cbn [_store]. rewrite Hkey, lookup_insert_eq. cbn.
  apply str_contains_infix.
Qed.

Lemma get_proto_sources_header_match_witness :
  fst (ExonumClient._get_proto_sources sample_client None
         (world_answering (Ret charset_response)))
  = read_proto_files charset_response.
Proof.
  apply (get_proto_sources_header_match sample_client None
           (world_answering (Ret charset_response)) charset_response
           "Content-Type" "" "; charset=utf-8" cid_empty);
    reflexivity.
Defined.

(** X12: when the transport raises instead of answering, the fetch raises the
    same exception, unwrapped, having sent its one request; nothing is read
    and no [RuntimeError] is made. *)
Theorem get_proto_sources_transport_error self params w e :
  server w (sent w) (GET (system_url self "proto-sources") params) = Raise e ->
  ExonumClient._get_proto_sources self params w
  = (Raise e, after_request (GET (system_url self "proto-sources") params) w).
Proof.
  intros Hraise. rewrite get_proto_sources_run. cbv zeta. now rewrite Hraise.
Qed.

Lemma get_proto_sources_transport_error_witness :
  ExonumClient._get_proto_sources sample_client None (world_answering (Raise ConnectionError))
  = (Raise ConnectionError,
     after_request (GET (system_url sample_client "proto-sources") None)
       (world_answering (Raise ConnectionError))).
Proof.
  apply (get_proto_sources_transport_error sample_client None
           (world_answering (Raise ConnectionError)) ConnectionError).
  reflexivity.
Defined.

(** ** More on the subscriber *)

Lemma event_processing_body_any self w data rest :
  connected (Subscriber._ws_client self) = true ->
  incoming (Subscriber._ws_client self) = data :: rest ->
  Subscriber._event_processing_body (self, w)
  = let ws := {| connected := true; incoming := rest;
                 ws_calls := ws_called CallRecv (Subscriber._ws_client self) |} in
    let call := (match frame_truthy data, Subscriber._handler self with
                 | true, Some handler => handler data
                 | _, _ => mret tt
                 end) w in
    (fst call, (Subscriber.set_ws_client ws self, snd call)).
Proof.
  intros Hconnected Hincoming.
  unfold Subscriber._event_processing_body, Subscriber.on_ws_client, zoom, ws_recv.
  unfold mbind at 1, M_bind, bind at 1. cbn [fst snd].
  rewrite Hconnected, Hincoming.
  unfold mbind at 1, bind at 1, Subscriber.self_. cbn [fst snd Subscriber.set_ws_client
    Subscriber._handler]. cbv zeta.
  destruct (frame_truthy data); [| reflexivity].
  destruct (Subscriber._handler self) as [handler |]; [| reflexivity].
  unfold Subscriber.on_world, zoom. cbn [fst snd].
  destruct (handler data w); reflexivity.
Qed.

Lemma after_receiving_step ws data rest turns :
  connected ws = true ->
  incoming ws = data :: rest ->
  after_receiving turns
    {| connected := true; incoming := rest; ws_calls := ws_called CallRecv ws |}
  = after_receiving (S turns) ws.
Proof.
  intros Hconnected Hincoming. unfold after_receiving, ws_called.
  cbn [connected incoming ws_calls]. rewrite Hconnected, Hincoming.
  cbn [drop replicate]. now rewrite <- app_assoc.
Qed.

Lemma set_ws_client_twice ws1 ws2 self :
  Subscriber.set_ws_client ws2 (Subscriber.set_ws_client ws1 self)
  = Subscriber.set_ws_client ws2 self.
Proof. reflexivity. Qed.

Lemma after_receiving_nothing self :
  Subscriber.set_ws_client (after_receiving 0 (Subscriber._ws_client self)) self = self.
Proof.
  destruct self as [address running is_connected [c i calls] thread handler].
  unfold after_receiving, Subscriber.set_ws_client. cbn. now rewrite app_nil_r.
Qed.

(** The loop, as long as the callback returns: after [turns] turns that many
    frames are off the socket, and the world is what the callback made of the
    ones that were not empty. *)
Lemma event_processing_progress turns self w :
  Subscriber._is_running self = true ->
  connected (Subscriber._ws_client self) = true ->
  (turns <= length (incoming (Subscriber._ws_client self)))%nat ->
  fst (hand_over (Subscriber._handler self)
         (take turns (incoming (Subscriber._ws_client self))) w) = Ret tt ->
  Subscriber._event_processing turns (self, w)
  = (Ret Subscriber.Looping,
     (Subscriber.set_ws_client (after_receiving turns (Subscriber._ws_client self)) self,
      snd (hand_over (Subscriber._handler self)
             (take turns (incoming (Subscriber._ws_client self))) w))).
Proof.
  revert self w. induction turns as [| turns IH];
    intros self w Hrunning Hconnected Hturns Hreturns.
  - cbn [Subscriber._event_processing]. unfold mbind, M_bind, bind, Subscriber.self_.
    cbn [fst]. rewrite Hrunning, after_receiving_nothing.
    destruct (Subscriber._handler self); reflexivity.
  - destruct (incoming (Subscriber._ws_client self)) as [| data rest] eqn:Hincoming;
      [cbn in Hturns; lia |].
    cbn [Subscriber._event_processing].
    unfold mbind at 1, M_bind, bind at 1, Subscriber.self_. cbn [fst].
    rewrite Hrunning. unfold mbind at 1, bind at 1.
    rewrite (event_processing_body_any self w data rest Hconnected Hincoming). cbv zeta.
    rewrite <- (after_receiving_step _ data rest turns Hconnected Hincoming).
    set (ws := {| connected := true; incoming := rest;
                  ws_calls := ws_called CallRecv (Subscriber._ws_client self) |}).
    assert (∀ w1,
      fst (hand_over (Subscriber._handler self) (take turns rest) w1) = Ret tt ->
      Subscriber._event_processing turns (Subscriber.set_ws_client ws self, w1)
      = (Ret Subscriber.Looping,
         (Subscriber.set_ws_client (after_receiving turns ws) self,
          snd (hand_over (Subscriber._handler self) (take turns rest) w1)))) as Hrest.
    { intros w1 Hw1.
      rewrite (IH (Subscriber.set_ws_client ws self) w1 Hrunning eq_refl);
        [reflexivity | cbn in Hturns |- *; lia | exact Hw1]. }
    cbn [take] in Hreturns |- *. unfold hand_over in Hreturns |- *.
    destruct (Subscriber._handler self) as [handler |] eqn:Hhandler.
    + cbn [List.filter] in Hreturns |- *.
      destruct (frame_truthy data).
      * unfold deliver in Hreturns |- *. cbn [for_each] in Hreturns |- *.
        unfold bind in Hreturns |- *.
        destruct (handler data w) as [[[] | e |] w1]; cbn [fst snd] in Hreturns |- *;
          try discriminate.
        specialize (Hrest w1). unfold hand_over, deliver in Hrest. now apply Hrest.
      * cbn [fst snd]. specialize (Hrest w). unfold hand_over in Hrest.
        now apply Hrest.
    + destruct (frame_truthy data); cbn [fst snd]; specialize (Hrest w);
        unfold hand_over in Hrest; now apply Hrest.
Qed.

(** X13: while no callback is registered, a running loop still takes the
    frames off the socket: after [turns] turns that many frames are gone, and
    the world is untouched. Frames that arrive before [set_handler] are lost. *)
Theorem event_processing_without_handler turns self w :
  Subscriber._handler self = None ->
  Subscriber._is_running self = true ->
  connected (Subscriber._ws_client self) = true ->
  (turns <= length (incoming (Subscriber._ws_client self)))%nat ->
  Subscriber._event_processing turns (self, w)
  = (Ret Subscriber.Looping,
     (Subscriber.set_ws_client (after_receiving turns (Subscriber._ws_client self)) self,
      w)).
Proof.
  intros Hhandler Hrunning Hconnected Hturns.
  rewrite (event_processing_progress turns self w Hrunning Hconnected Hturns);
    rewrite Hhandler; reflexivity.
Qed.

Lemma event_processing_without_handler_witness :
  Subscriber._event_processing 2
    (Subscriber.set__handler None (listening_subscriber three_frames),
     world_streaming three_frames)
  = (Ret Subscriber.Looping,
     (Subscriber.set_ws_client
        {| connected := true; incoming := [RStr "block 2"];
           ws_calls := [CallConnect websocket_address; CallRecv; CallRecv] |}
        (Subscriber.set__handler None (listening_subscriber three_frames)),
      world_streaming three_frames)).
Proof.
  apply (event_processing_without_handler 2
           (Subscriber.set__handler None (listening_subscriber three_frames))
           (world_streaming three_frames)); try reflexivity.
  cbn. lia.
Defined.

(** X14: nothing in the loop catches what the callback raises. When the
    callback raises on a frame that is not empty, [_event_processing] ends
    with that exception, however many turns it had left: the frames behind
    that one stay on the socket, and [_is_running] is still true. *)
Theorem event_processing_handler_raises turns self w handler data rest e w' :
  Subscriber._is_running self = true ->
  Subscriber._handler self = Some handler ->
  connected (Subscriber._ws_client self) = true ->
  incoming (Subscriber._ws_client self) = data :: rest ->
  frame_truthy data = true ->
  handler data w = (Raise e, w') ->
  ∃ self',
    Subscriber._event_processing (S turns) (self, w) = (Raise e, (self', w'))
    ∧ incoming (Subscriber._ws_client self') = rest
    ∧ Subscriber._is_running self' = true.
Proof.
  intros Hrunning Hhandler Hconnected Hincoming Htruthy Hraises.
  rewrite (event_processing_turn turns self w handler data rest Hrunning Hhandler
             Hconnected Hincoming). cbv zeta.
  rewrite Htruthy, Hraises. cbn [fst snd].
  eexists. split; [reflexivity |]. split; [reflexivity | exact Hrunning].
Qed.

Lemma event_processing_handler_raises_witness :
  ∃ self',
    Subscriber._event_processing 3
      (Subscriber.set__handler (Some failing_handler) (listening_subscriber three_frames),
       world_streaming three_frames)
    = (Raise ValueError, (self', world_streaming three_frames))
    ∧ incoming (Subscriber._ws_client self') = [RStr ""; RStr "block 2"]
    ∧ Subscriber._is_running self' = true.
Proof.
  apply (event_processing_handler_raises 2
           (Subscriber.set__handler (Some failing_handler)
              (listening_subscriber three_frames))
           (world_streaming three_frames) failing_handler (RStr "block 1")
           [RStr ""; RStr "block 2"] ValueError (world_streaming three_frames));
    reflexivity.
Defined.

(** X15: a loop started on a socket that was never connected ends in its
    first turn with the exception of [recv]; the callback is not called and
    [_is_running] stays true. *)
Theorem event_processing_not_connected turns self w :
  Subscriber._is_running self = true ->
  connected (Subscriber._ws_client self) = false ->
  ∃ self',
    Subscriber._event_processing (S turns) (self, w)
    = (Raise WebSocketConnectionClosedException, (self', w))
    ∧ Subscriber._is_running self' = true
    ∧ Subscriber._connected self' = Subscriber._connected self.
Proof.
  intros Hrunning Hconnected.
  destruct self as [address running is_connected [c frames calls] thread handler].
  cbn in Hrunning, Hconnected. subst running c.
  eexists. split; [reflexivity |]. split; reflexivity.
Qed.

Lemma event_processing_not_connected_witness :
  ∃ self',
    Subscriber._event_processing 1
      (Subscriber.set_is_running true fresh_subscriber, world_streaming three_frames)
    = (Raise WebSocketConnectionClosedException, (self', world_streaming three_frames))
    ∧ Subscriber._is_running self' = true
    ∧ Subscriber._connected self' = false.
Proof.
  apply (event_processing_not_connected 0
           (Subscriber.set_is_running true fresh_subscriber)
           (world_streaming three_frames));
    reflexivity.
Defined.

(** X16: [stop] does not end a running loop by the flag. On a subscriber
    that is running and connected it closes the socket and then raises
    [AttributeError] at [isAlive]: the thread is not joined and [_is_running]
    stays true. The loop therefore does not leave at its test; its next turn
    ends with the exception of [recv] on the closed socket. A further [stop]
    raises again and changes nothing. *)
Theorem event_processing_after_stop turns self w :
  Subscriber._is_running self = true ->
  Subscriber._connected self = true ->
  ∃ self',
    Subscriber.stop (self, w) = (Raise AttributeError, (self', w))
    ∧ Subscriber._is_running self' = true
    ∧ Subscriber._connected self' = false
    ∧ Subscriber._thread self' = Subscriber._thread self
    ∧ ws_calls (Subscriber._ws_client self')
      = (ws_calls (Subscriber._ws_client self) ++ [CallClose])%list
    ∧ fst (Subscriber._event_processing (S turns) (self', w))
      = Raise WebSocketConnectionClosedException
    ∧ Subscriber.stop (self', w) = (Raise AttributeError, (self', w)).
Proof.
  intros Hrunning Hconnected. exists (disconnected self).
  rewrite !stop_run.
  destruct (disconnected_flags self) as [Hc [Hr [Ht Hd]]].
  rewrite Hr, Hd, Hrunning.
  destruct self as [address running is_connected ws thread handler].
  cbn in Hrunning, Hconnected. subst running is_connected.
  repeat split.
Qed.

Lemma event_processing_after_stop_witness :
  ∃ self',
    Subscriber.stop (listening_subscriber three_frames, world_streaming three_frames)
    = (Raise AttributeError, (self', world_streaming three_frames))
    ∧ Subscriber._is_running self' = true
    ∧ Subscriber._connected self' = false
    ∧ Subscriber._thread self' = Subscriber._thread (listening_subscriber three_frames)
    ∧ ws_calls (Subscriber._ws_client self')
      = (ws_calls (Subscriber._ws_client (listening_subscriber three_frames))
         ++ [CallClose])%list
    ∧ fst (Subscriber._event_processing 1 (self', world_streaming three_frames))
      = Raise WebSocketConnectionClosedException
    ∧ Subscriber.stop (self', world_streaming three_frames)
      = (Raise AttributeError, (self', world_streaming three_frames)).
Proof.
  apply (event_processing_after_stop 0 (listening_subscriber three_frames)
           (world_streaming three_frames)); reflexivity.
Defined.

(** X17: a subscriber cannot be started twice. On an object whose thread has
    been started before, also after [stop], [run] returns normally, prints
    the error of the thread, leaves the thread as it is and [_is_running]
    true; [wait_for_new_block] then only prints its warning. *)
Theorem run_cannot_restart self w :
  state (Subscriber._thread self) ≠ Initial ->
  Subscriber.run (self, w)
  = (Ret tt,
     (Subscriber.set_is_running true self,
      set_stdout (fun out => (out ++ [run_error])%list) w))
  ∧ (Subscriber.run;; Subscriber.wait_for_new_block) (self, w)
    = (Ret tt,
       (Subscriber.set_is_running true self,
        set_stdout (fun out => ((out ++ [run_error]) ++ [warning])%list) w)).
Proof.
  intros Hstarted.
  assert (Subscriber.run (self, w)
          = (Ret tt,
             (Subscriber.set_is_running true self,
              set_stdout (fun out => (out ++ [run_error])%list) w))) as Hrun.
  { destruct self as [address running is_connected ws [d st j cur] handler].
    destruct st; [contradiction | reflexivity | reflexivity]. }
  split; [exact Hrun |].
  unfold mbind, M_bind, bind at 1. rewrite Hrun. reflexivity.
Qed.

Lemma run_cannot_restart_witness :
  Subscriber.run (listening_subscriber three_frames, world_streaming three_frames)
  = (Ret tt,
     (Subscriber.set_is_running true (listening_subscriber three_frames),
      set_stdout (fun out => (out ++ [run_error])%list) (world_streaming three_frames)))
  ∧ (Subscriber.run;; Subscriber.wait_for_new_block)
      (listening_subscriber three_frames, world_streaming three_frames)
    = (Ret tt,
       (Subscriber.set_is_running true (listening_subscriber three_frames),
        set_stdout (fun out => ((out ++ [run_error]) ++ [warning])%list)
          (world_streaming three_frames))).
Proof.
  apply (run_cannot_restart (listening_subscriber three_frames)
           (world_streaming three_frames)).
  discriminate.
Defined.

(** X18: [with subscriber: body] leaves the subscriber disconnected, but
    not always stopped. When the endpoint accepts the connection and the block
    comes to an end, by a return or by an exception of the body, [_connected]
    is false afterwards; and if [_is_running] is still true then, as it is
    when the body called [run], the block has ended with the
    [AttributeError] that [__exit__] raises at [isAlive]. *)
Theorem with_subscriber_closes {A} (body : Subscriber.Method A) self w frames :
  ws_network w (Subscriber._address self) = Some frames ->
  fst (with_subscriber body (self, w)) ≠ Block ->
  Subscriber._connected (fst (snd (with_subscriber body (self, w)))) = false
  ∧ (Subscriber._is_running (fst (snd (with_subscriber body (self, w)))) = true ->
     fst (with_subscriber body (self, w)) = Raise AttributeError).
Proof.
  intros Haccepts Hends. unfold with_subscriber in *.
  assert (∃ s1, Subscriber.__enter__ (self, w) = (Ret tt, s1)) as [s1 Henter].
  { unfold Subscriber.__enter__, Subscriber.connect.
    unfold mbind, M_bind, bind, Subscriber.self_, Subscriber.on_ws_client_world, zoom,
      ws_connect. cbn [fst snd]. rewrite Haccepts. eexists. reflexivity. }
  rewrite Henter in *.
  destruct (body s1) as [[a | e |] [self2 w2]]; [| | contradiction];
    unfold Subscriber.__exit__ in *; rewrite stop_run in *;
    destruct (disconnected_flags self2) as [Hc [Hr _]];
    destruct (Subscriber._is_running self2); cbn [fst snd];
    (split; [exact Hc |]); rewrite Hr; intros Hstill;
    try reflexivity; discriminate.
Qed.

Lemma with_subscriber_closes_witness :
  Subscriber._connected
    (fst (snd (with_subscriber Subscriber.run
                 (fresh_subscriber, world_streaming three_frames)))) = false
  ∧ (Subscriber._is_running
       (fst (snd (with_subscriber Subscriber.run
                    (fresh_subscriber, world_streaming three_frames)))) = true ->
     fst (with_subscriber Subscriber.run (fresh_subscriber, world_streaming three_frames))
     = Raise AttributeError).
Proof.
  apply (with_subscriber_closes Subscriber.run fresh_subscriber
           (world_streaming three_frames) three_frames).
  - reflexivity.
  - discriminate.
Defined.

(** X19: when the endpoint refuses the connection, [connect] raises and does
    not set [_connected]; a [with] block then ends with that exception before
    its body has run, and a later [stop] makes no call on the socket. *)
Theorem connect_refused {A} (body : Subscriber.Method A) self w :
  ws_network w (Subscriber._address self) = None ->
  ∃ self',
    Subscriber.connect (self, w) = (Raise ConnectionError, (self', w))
    ∧ with_subscriber body (self, w) = (Raise ConnectionError, (self', w))
    ∧ Subscriber._connected self' = Subscriber._connected self
    ∧ (Subscriber._connected self = false ->
       ws_calls (Subscriber._ws_client (fst (snd (Subscriber.stop (self', w)))))
       = ws_calls (Subscriber._ws_client self')).
Proof.
  intros Hrefuses.
  assert (∃ self', Subscriber.connect (self, w) = (Raise ConnectionError, (self', w))
                   ∧ Subscriber._connected self' = Subscriber._connected self
                   ∧ Subscriber._is_running self' = Subscriber._is_running self
                   ∧ Subscriber._thread self' = Subscriber._thread self)
    as [self' [Hconnect [Hconnected [Hrunning Hthread]]]].
  { unfold Subscriber.connect.
    unfold mbind, M_bind, bind, Subscriber.self_, Subscriber.on_ws_client_world, zoom,
      ws_connect. cbn [fst snd]. rewrite Hrefuses. eexists.
    split; [reflexivity |]. repeat split. }
  exists self'. split; [exact Hconnect |]. split; [| split; [exact Hconnected |]].
  - unfold with_subscriber, Subscriber.__enter__. now rewrite Hconnect.
  - intros Hnot. rewrite <- Hconnected in Hnot.
    destruct self' as [address running is_connected ws [d st j cur] handler].
    cbn in Hnot. subst is_connected.
    destruct running, st; reflexivity.
Qed.

Lemma connect_refused_witness :
  ∃ self',
    Subscriber.connect (fresh_subscriber, world_answering Block)
    = (Raise ConnectionError, (self', world_answering Block))
    ∧ with_subscriber Subscriber.wait_for_new_block (fresh_subscriber, world_answering Block)
      = (Raise ConnectionError, (self', world_answering Block))
    ∧ Subscriber._connected self' = false
    ∧ (false = false ->
       ws_calls (Subscriber._ws_client
                   (fst (snd (Subscriber.stop (self', world_answering Block)))))
       = ws_calls (Subscriber._ws_client self')).
Proof.
  apply (connect_refused Subscriber.wait_for_new_block fresh_subscriber
           (world_answering Block)).
  reflexivity.
Defined.
